(** * PlanSearchExecutorSK.generate_response: a shallow embedding

    The plan-search executor of [app/backend/services_sk/plan_search_executor_sk.py]
    is an asynchronous Python generator.  It is embedded here as a program in a
    small monad [Gen] that records, in order, the fragments the generator
    yields and the collaborator functions it invokes, threads the local
    variables a stage assigns, and propagates exceptions to the enclosing
    [try]/[except].  Local variables survive an exception, as they do in Python.

    Characters are modelled as bytes ([ascii]), Python integers as [Z] or
    [nat], dictionaries decoded from JSON as [gmap string _], the set of seen
    document identities as [gset string]. *)

From stdpp Require Import base strings list gmap sets pretty.
From Stdlib Require Import Ascii QArith.

Local Open Scope Z_scope.

(** ** Strings *)

(** The line feed, written [\n] in the source. *)
Definition NL : string := String "010"%char "".

(** [len(s)] *)
Definition len (s : string) : Z := Z.of_nat (String.length s).

(** [s[:n]] for a non-negative [n] *)
Definition slice_to (n : Z) (s : string) : string := String.substring 0 (Z.to_nat n) s.

(** [sep.join(l)] *)
Definition join (sep : string) (l : list string) : string := String.concat sep l.

(** Truthiness of a text that may be [None]. *)
Definition truthy (v : option string) : bool :=
  match v with
  | Some s => bool_decide (s ≠ "")
  | None => false
  end.

(** ** Exceptions, events and the generator monad *)

(** An exception is an instance of [Exception], the class that every handler
    of the source catches, and is identified with [str(e)], the only thing
    these handlers look at.  What is no [Exception] ([CancelledError],
    [KeyboardInterrupt], [GeneratorExit]) passes every [except Exception] of
    the source and is not modelled, for any collaborator. *)
Definition exn : Type := string.

(** Reading a local variable that no executed statement has assigned. *)
Definition UnboundLocalError (name : string) : exn :=
  "cannot access local variable '" +:+ name +:+
  "' where it is not associated with a value".

Inductive result (A : Type) : Type :=
| Ret (a : A)
| Raise (e : exn).
Arguments Ret {A} a.
Arguments Raise {A} e.

(** What a collaborator that answers in JSON hands back once the invocation
    itself has returned. *)
Inductive value (A : Type) : Type :=
| NoValue                (* the result, or its [value], is falsy *)
| Malformed (e : exn)    (* decoding the value, or reading the decoded value
                            as an object, raises [e] *)
| Decoded (a : A).
Arguments NoValue {A}.
Arguments Malformed {A} e.
Arguments Decoded {A} a.

(** The invocations of collaborators, with the arguments that vary. *)
Inductive call : Type :=
| analyze_intent_call (original_query : string) (locale : option string)
| generate_search_plan_call (user_intent enriched_query : string)
    (locale : option string)
| grounding_search_multi_query_call (search_queries : list string)
    (max_tokens : Z) (temperature : Q) (locale : option string)
| search_single_query_call (query : string) (locale : option string)
| search_youtube_videos_call (mcp : bool) (query : string)
| search_documents_call (query : string)
| chat_completions_create_call (messages : list (string * string))
    (max_tokens : Z) (temperature : Q) (stream : bool).

Inductive event : Type :=
| Yield (fragment : string)
| Invoke (c : call).

Definition Gen (St A : Type) : Type := St → list event * St * result A.

#[global] Instance gen_ret {St} : MRet (Gen St) :=
  λ A a s, ([], s, Ret a).

#[global] Instance gen_bind {St} : MBind (Gen St) :=
  λ A B k m s,
    match m s with
    | (ev, s', Ret a) => let '(ev', s'', r) := k a s' in (ev ++ ev', s'', r)
    | (ev, s', Raise e) => (ev, s', Raise e)
    end.

#[global] Instance gen_throw {St} : MThrow exn (Gen St) :=
  λ A e s, ([], s, Raise e).

Definition yield {St} (fragment : string) : Gen St unit :=
  λ s, ([Yield fragment], s, Ret tt).

Definition invoke {St A} (c : call) (answer : result A) : Gen St A :=
  λ s, ([Invoke c], s, answer).

(** Evaluating an expression that may raise and invokes no collaborator. *)
Definition attempt {St A} (r : result A) : Gen St A := λ s, ([], s, r).

Definition get {St} : Gen St St := λ s, ([], s, Ret s).

Definition modify {St} (f : St → St) : Gen St unit := λ s, ([], f s, Ret tt).

Definition when {St} (b : bool) (m : Gen St unit) : Gen St unit :=
  if b then m else mret tt.

(** [try: m  except Exception as e: handler e] *)
Definition try_except {St A} (m : Gen St A) (handler : exn → Gen St A)
  : Gen St A :=
  λ s,
    match m s with
    | (ev, s', Raise e) => let '(ev', s'', r) := handler e s' in (ev ++ ev', s'', r)
    | done => done
    end.

(** A local that may not be bound yet is an [option]; reading it unbound
    raises. *)
Definition read_local {St A} (name : string) (v : option A) : Gen St A :=
  match v with
  | Some a => mret a
  | None => mthrow (UnboundLocalError name)
  end.

(** [json.loads] on the value of a result. *)
Definition decode {St A} (v : value A) : Gen St (option A) :=
  match v with
  | NoValue => mret None
  | Malformed e => mthrow e
  | Decoded a => mret (Some a)
  end.

Inductive ctl : Type := Continue | Break.

(** [for i, x in enumerate(xs, start): body], where the body says whether the
    loop goes on. *)
Fixpoint for_enumerate {St A} (start : nat) (xs : list A)
    (body : nat → A → Gen St ctl) : Gen St unit :=
  match xs with
  | [] => mret tt
  | x :: xs' =>
      c ← body start x;
      match c with
      | Continue => for_enumerate (S start) xs' body
      | Break => mret tt
      end
  end.

(** Runs a stage on its own local variables and hands back their final
    values. *)
Definition scope {St St' A} (init : St') (m : Gen St' A) : Gen St St' :=
  λ s,
    match m init with
    | (ev, s', Ret _) => (ev, s, Ret s')
    | (ev, _, Raise e) => (ev, s, Raise e)
    end.

Definition events {St A} (r : list event * St * result A) : list event := r.1.1.
Definition final {St A} (r : list event * St * result A) : St := r.1.2.
Definition outcome {St A} (r : list event * St * result A) : result A := r.2.
Arguments events {St A} !r /.
Arguments final {St A} !r /.
Arguments outcome {St A} !r /.

Definition yields (ev : list event) : list string :=
  omap (λ e, match e with Yield s => Some s | Invoke _ => None end) ev.

Definition calls (ev : list event) : list call :=
  omap (λ e, match e with Invoke c => Some c | Yield _ => None end) ev.

(** ** Data of a request *)

Record ChatMessage : Type := { role : string; content : string }.

(** The members of [utils.enum.SearchEngine] that the executor tells apart;
    any other member is an [OTHER_SEARCH_ENGINE]. *)
Inductive SearchEngine : Type :=
| BING_GROUNDING
| BING_SEARCH_CRAWLING
| BING_GROUNDING_CRAWLING
| OTHER_SEARCH_ENGINE (name : string).

(** The parameters of [generate_response]. *)
Record Request : Type := {
  messages : list ChatMessage;
  max_tokens : option Z;
  temperature : option Q;
  query_rewrite : bool;
  planning : bool;
  search_engine : SearchEngine;
  stream : bool;
  elapsed_time : bool;
  locale : option string;
  include_web_search : bool;
  include_ytb_search : bool;
  include_mcp_server : bool;
  include_ai_search : bool;
  verbose : bool
}.

(** One entry of [i18n.locale_msg.LOCALE_MESSAGES], with the keys the
    executor reads. *)
Record LocaleMsg : Type := {
  input_needed : string;
  analyzing : string;
  analyze_complete : string;
  intent_small_talk : string;
  search_planning : string;
  plan_done : string;
  searching : string;
  search_keyword : string;
  search_done : string;
  searching_YouTube : string;
  YouTube_done : string;
  ai_search_context : string;
  ai_search_context_done : string;
  answering : string
}.

(** A document of a search result, and the decoded result itself. *)
Abbreviation doc := (gmap string string).

Record search_data : Type := {
  status : option string;
  documents : list doc
}.

(** ** The collaborators

    Everything [generate_response] reaches outside its own body: settings,
    message tables, prompt templates, clock, codecs, kernel functions and the
    completion client.  A function that is invoked once per iteration of a
    loop also receives the position of that iteration, so that it may
    answer differently each time it is asked. *)
Record Collaborators : Type := {
  MAX_TOKENS : Z;
  DEFAULT_TEMPERATURE : Q;
  LOCALE_MESSAGES : gmap string LocaleMsg;
  (** [LOCALE_MESSAGES["ko-KR"]], which the source indexes unconditionally *)
  LOCALE_MESSAGES_ko_KR : LocaleMsg;
  (** [datetime.now(tz).strftime("%Y-%m-%d")] *)
  today : string;
  (** [ttft_time.total_seconds()], formatted *)
  total_seconds : string;
  (** [base64.b64encode(code.encode('utf-8')).decode('utf-8')]: encoding
      raises [UnicodeEncodeError] on a text that holds a lone surrogate, which
      [json.loads] accepts and [json.dumps(_, ensure_ascii=False)] keeps *)
  b64encode : string → result string;
  (** [json.dumps(_, ensure_ascii=False, indent=2)] *)
  json_dumps_intent : gmap string string → string;
  json_dumps_plan : gmap string (list string) → string;
  (** [PROMPT.format(current_date=, contexts=, question=, locale=)] *)
  GENERAL_ANSWER_PROMPT : string → string → string → option string → string;
  PRODUCT_ANSWER_PROMPT : string → string → string → option string → string;
  analyze_intent :
    string → option string → result (value (gmap string string));
  generate_search_plan :
    string → string → option string → result (value (gmap string (list string)));
  grounding_search_multi_query :
    list string → Z → Q → option string → result (option string);
  search_single_query : nat → string → option string → result (option string);
  youtube_search_youtube_videos : nat → string → result (option string);
  youtube_mcp_search_youtube_videos : nat → string → result (option string);
  search_documents : nat → string → result (value search_data);
  (** [client.chat.completions.create(..., stream=False)]: the content of
      the first choice *)
  chat_completions_create :
    list (string * string) → Z → Q → result string;
  (** [client.chat.completions.create(..., stream=True)]: the content of each
      chunk ([None] for a chunk without choices or content), and the exception
      that ends the iteration early, if any *)
  chat_completions_create_stream :
    list (string * string) → Z → Q → result (list (option string) * option exn)
}.

(** ** Local variables of the stages *)

(** Intent analysis and planning (lines 188-269). *)
Record intent_vars : Type := {
  v_planning : bool;
  v_include_web_search : bool;
  v_include_ytb_search : bool;
  v_user_intent : option string;
  v_intent_data : option (gmap string string);
  v_enriched_query : string;
  v_search_queries : list string;
  v_resource_group_name : option string;
  v_plan_data : option (gmap string (list string))
}.

Definition assign_intent (d : gmap string string) (last_user_message : string)
    (v : intent_vars) : intent_vars :=
  {| v_planning := v_planning v;
     v_include_web_search := v_include_web_search v;
     v_include_ytb_search := v_include_ytb_search v;
     v_user_intent := Some (default "general_query" (d !! "user_intent"));
     v_intent_data := Some d;
     v_enriched_query := default last_user_message (d !! "enriched_query");
     v_search_queries := [default last_user_message (d !! "search_query")];
     v_resource_group_name := d !! "resource_group_name";
     v_plan_data := v_plan_data v |}.

Definition disable_search (v : intent_vars) : intent_vars :=
  {| v_planning := false;
     v_include_web_search := false;
     v_include_ytb_search := false;
     v_user_intent := v_user_intent v;
     v_intent_data := v_intent_data v;
     v_enriched_query := v_enriched_query v;
     v_search_queries := v_search_queries v;
     v_resource_group_name := v_resource_group_name v;
     v_plan_data := v_plan_data v |}.

Definition assign_search_queries (qs : list string) (v : intent_vars)
  : intent_vars :=
  {| v_planning := v_planning v;
     v_include_web_search := v_include_web_search v;
     v_include_ytb_search := v_include_ytb_search v;
     v_user_intent := v_user_intent v;
     v_intent_data := v_intent_data v;
     v_enriched_query := v_enriched_query v;
     v_search_queries := qs;
     v_resource_group_name := v_resource_group_name v;
     v_plan_data := v_plan_data v |}.

Definition assign_plan_data (p : gmap string (list string)) (v : intent_vars)
  : intent_vars :=
  {| v_planning := v_planning v;
     v_include_web_search := v_include_web_search v;
     v_include_ytb_search := v_include_ytb_search v;
     v_user_intent := v_user_intent v;
     v_intent_data := v_intent_data v;
     v_enriched_query := v_enriched_query v;
     v_search_queries := v_search_queries v;
     v_resource_group_name := v_resource_group_name v;
     v_plan_data := Some p |}.

(** Web search (lines 275-356). *)
Record web_vars : Type := {
  w_all_contexts : list string;
  w_web_search_contexts : list string;
  w_combined_web_context : option string
}.

(** Video search (lines 358-402). *)
Record youtube_vars : Type := {
  y_all_contexts : list string;
  y_youtube_search_contexts : list string;
  y_combined_youtube_context : option string
}.

(** Document search (lines 404-508). *)
Record doc_vars : Type := {
  d_all_contexts : list string;
  d_doc_contexts : list string;
  d_combined_doc_context : string;
  d_seen_documents : gset string;
  d_current_total_length : Z
}.

Definition MAX_CONTEXT_LENGTH : Z := 400000.
Definition MAX_DOCUMENT_LENGTH : Z := 10000.
Definition TRUNCATED : string := "... [truncated]".

(** ** Status fragments *)

(** [send_step_with_code] *)
Definition send_step_with_code (E : Collaborators) (step_name code : string)
  : result string :=
  match b64encode E code with
  | Ret encoded_code =>
      Ret ("### " +:+ step_name +:+ "#code#" +:+ encoded_code)
  | Raise e => Raise e
  end.

(** [send_step_with_input] *)
Definition send_step_with_input (step_name description : string) : string :=
  "### " +:+ step_name +:+ "#input#" +:+ description.

(** [send_step_with_code_and_input] *)
Definition send_step_with_code_and_input (E : Collaborators)
    (step_name code description : string) : result string :=
  match b64encode E code with
  | Ret encoded_code =>
      Ret ("### " +:+ step_name +:+ "#input#" +:+ description +:+ "#code#" +:+
           encoded_code)
  | Raise e => Raise e
  end.

(** [f"data: ### {label}\n\n"] *)
Definition status_line (label : string) : string :=
  "data: ### " +:+ label +:+ NL +:+ NL.

(** [f"data: {step}\n\n"] *)
Definition data_line (step : string) : string :=
  "data: " +:+ step +:+ NL +:+ NL.

(** [f"{label} ({i+1}/{len(search_queries)}): {query}"] *)
Definition progress (label : string) (i : nat) (search_queries : list string)
    (query : string) : string :=
  label +:+ " (" +:+ pretty (i + 1)%nat +:+ "/" +:+
  pretty (length search_queries) +:+ "): " +:+ query.

(** ** Document identity and text (lines 442, 451-469) *)

(** [doc.get('id') or doc.get('title') or doc.get('url', f"doc_{i}_{doc_idx}")] *)
Definition doc_identity (i doc_idx : nat) (d : doc) : string :=
  if truthy (d !! "id") then default "" (d !! "id")
  else if truthy (d !! "title") then default "" (d !! "title")
  else default ("doc_" +:+ pretty i +:+ "_" +:+ pretty doc_idx) (d !! "url").

(** The text a document would add, or [None] where the source [continue]s
    for want of usable content. *)
Definition content_to_add (d : doc) : option string :=
  if truthy (d !! "content") then
    let original_content := default "" (d !! "content") in
    if bool_decide (MAX_DOCUMENT_LENGTH < len original_content)
    then Some (slice_to MAX_DOCUMENT_LENGTH original_content +:+ TRUNCATED)
    else Some original_content
  else if truthy (d !! "summary") then
    Some (slice_to MAX_DOCUMENT_LENGTH (default "" (d !! "summary")))
  else None.

Definition see_document (doc_id : string) (v : doc_vars) : doc_vars :=
  {| d_all_contexts := d_all_contexts v;
     d_doc_contexts := d_doc_contexts v;
     d_combined_doc_context := d_combined_doc_context v;
     d_seen_documents := {[ doc_id ]} ∪ d_seen_documents v;
     d_current_total_length := d_current_total_length v |}.

Definition add_document (text : string) (v : doc_vars) : doc_vars :=
  {| d_all_contexts := d_all_contexts v;
     d_doc_contexts := d_doc_contexts v ++ [text];
     d_combined_doc_context := d_combined_doc_context v;
     d_seen_documents := d_seen_documents v;
     d_current_total_length := d_current_total_length v + len text |}.

Definition combine_documents (v : doc_vars) : doc_vars :=
  let combined := join (NL +:+ NL) (d_doc_contexts v) in
  {| d_all_contexts :=
       d_all_contexts v ++ ["=== Document Context ===" +:+ NL +:+ combined];
     d_doc_contexts := d_doc_contexts v;
     d_combined_doc_context := combined;
     d_seen_documents := d_seen_documents v;
     d_current_total_length := d_current_total_length v |}.

(** One iteration of the inner loop (lines 441-478): [Continue] stands for
    reaching the end of the body or a [continue], [Break] for the [break]. *)
Definition admit_document (i doc_idx : nat) (d : doc) : Gen doc_vars ctl :=
  let doc_id := doc_identity i doc_idx d in
  v ← get;
  if bool_decide (doc_id ∈ d_seen_documents v) then mret Continue
  else
    modify (see_document doc_id);;
    match content_to_add d with
    | None => mret Continue
    | Some text =>
        v ← get;
        if truthy (Some text) &&
           bool_decide (d_current_total_length v + len text ≤ MAX_CONTEXT_LENGTH)
        then modify (add_document text);; mret Continue
        else mret Break
    end.

(** The inner loop, [for doc_idx, doc in enumerate(documents[:2], 1)]. *)
Definition admit_documents (i : nat) (documents : list doc)
  : Gen doc_vars unit :=
  for_enumerate 1 (take 2 documents) (admit_document i).

(** [next((m["content"] for m in reversed(messages_dict) if m["role"] == "user"),
    "No question provided")] (lines 165-169) *)
Definition last_user_message (msgs : list ChatMessage) : string :=
  default "No question provided"
    (content <$> head (filter (λ m, role m = "user") (reverse msgs))).

(** The text built for the grounding status line (lines 283-285). *)
Fixpoint text_appended_query (keyword : string) (i : nat)
    (search_queries : list string) (acc : string) : string :=
  match search_queries with
  | [] => acc
  | query :: rest =>
      text_appended_query keyword (S i) rest
        (acc +:+ pretty i +:+ ": " +:+ keyword +:+ ": " +:+ query +:+ " <br>")
  end.

(** Consuming the chunks of a streamed completion (lines 564-566). *)
Fixpoint yield_chunks {St} (chunks : list (option string)) : Gen St unit :=
  match chunks with
  | [] => mret tt
  | chunk :: rest =>
      when (truthy chunk) (yield (default "" chunk));;
      yield_chunks rest
  end.

Section generate_response.
Context (E : Collaborators) (req : Request).

(** [LOCALE_MESSAGES.get(locale, LOCALE_MESSAGES["ko-KR"])] *)
Definition LOCALE_MSG : LocaleMsg :=
  match locale req with
  | Some l => default (LOCALE_MESSAGES_ko_KR E) (LOCALE_MESSAGES E !! l)
  | None => LOCALE_MESSAGES_ko_KR E
  end.

(** *** Intent analysis and planning (lines 188-269) *)

Definition intent_vars_init : intent_vars :=
  {| v_planning := planning req;
     v_include_web_search := include_web_search req;
     v_include_ytb_search := include_ytb_search req;
     v_user_intent := None;
     v_intent_data := None;
     v_enriched_query := last_user_message (messages req);
     v_search_queries := [];
     v_resource_group_name := None;
     v_plan_data := None |}.

Definition analyze_and_plan : Gen intent_vars unit :=
  let original_query := last_user_message (messages req) in
  intent_result ←
    invoke (analyze_intent_call original_query (locale req))
           (analyze_intent E original_query (locale req));
  intent_data ← decode intent_result;
  match intent_data with
  | Some d => modify (assign_intent d original_query)
  | None => mret tt
  end;;
  when (verbose req && stream req) (
    v ← get;
    d ← read_local "intent_data" (v_intent_data v);
    let intent_data_str :=
      if bool_decide (d ≠ ∅) then json_dumps_intent E d else "{}" in
    step ←
      attempt (send_step_with_code E (analyze_complete LOCALE_MSG)
                 intent_data_str);
    yield (data_line step));;
  v ← get;
  user_intent ← read_local "user_intent" (v_user_intent v);
  when (bool_decide (user_intent = "small_talk")) (
    modify disable_search;;
    when (stream req) (yield (status_line (intent_small_talk LOCALE_MSG))));;
  v ← get;
  when (v_planning v) (
    when (stream req) (yield (status_line (search_planning LOCALE_MSG)));;
    plan_result ←
      invoke (generate_search_plan_call user_intent (v_enriched_query v)
                (locale req))
             (generate_search_plan E user_intent (v_enriched_query v)
                (locale req));
    plan_data ← decode plan_result;
    match plan_data with
    | Some p =>
        modify (assign_plan_data p);;
        modify (assign_search_queries
                  (default [v_enriched_query v] (p !! "search_queries")))
    | None => modify (assign_search_queries [v_enriched_query v])
    end;;
    when (verbose req && stream req) (
      v ← get;
      p ← read_local "plan_data" (v_plan_data v);
      let plan_data_str :=
        if bool_decide (p ≠ ∅) then json_dumps_plan E p else "{}" in
      step ←
        attempt (send_step_with_code E (plan_done LOCALE_MSG) plan_data_str);
      yield (data_line step))).

Definition intent_fallback (e : exn) : Gen intent_vars unit :=
  v ← get;
  modify (assign_search_queries [v_enriched_query v]);;
  when (stream req)
    (yield (status_line "Intent analysis failed, using fallback")).

Definition intent_stage : Gen intent_vars unit :=
  try_except analyze_and_plan intent_fallback.

(** *** Web search (lines 275-356) *)

Definition append_web_result (text : string) (v : web_vars) : web_vars :=
  {| w_all_contexts := w_all_contexts v;
     w_web_search_contexts := w_web_search_contexts v ++ [text];
     w_combined_web_context := w_combined_web_context v |}.

Definition append_grounding_block (text : string) (v : web_vars) : web_vars :=
  {| w_all_contexts :=
       w_all_contexts v ++ ["=== Grounding Search ===" +:+ NL +:+ text];
     w_web_search_contexts := w_web_search_contexts v;
     w_combined_web_context := w_combined_web_context v |}.

Definition combine_web (v : web_vars) : web_vars :=
  let combined := join (NL +:+ NL) (w_web_search_contexts v) in
  {| w_all_contexts :=
       w_all_contexts v ++ ["=== Web Search ===" +:+ NL +:+ combined];
     w_web_search_contexts := w_web_search_contexts v;
     w_combined_web_context := Some combined |}.

Definition web_search (search_queries : list string) : Gen web_vars unit :=
  let max_tokens := default (MAX_TOKENS E) (max_tokens req) in
  let temperature := default (DEFAULT_TEMPERATURE E) (temperature req) in
  match search_engine req with
  | BING_GROUNDING =>
      when (stream req) (yield (status_line
        (text_appended_query (search_keyword LOCALE_MSG) 0 search_queries
           (searching LOCALE_MSG +:+ "...<br>"))));;
      grounding_result ←
        invoke (grounding_search_multi_query_call search_queries max_tokens
                  temperature (locale req))
               (grounding_search_multi_query E search_queries max_tokens
                  temperature (locale req));
      when (truthy grounding_result)
        (modify (append_grounding_block (default "" grounding_result)))
  | BING_SEARCH_CRAWLING | BING_GROUNDING_CRAWLING =>
      for_enumerate 0 search_queries (λ i query,
        when (stream req) (yield (status_line
          (progress (searching LOCALE_MSG) i search_queries query)));;
        search_result ←
          invoke (search_single_query_call query (locale req))
                 (search_single_query E i query (locale req));
        when (truthy search_result)
          (modify (append_web_result (default "" search_result)));;
        mret Continue);;
      v ← get;
      when (bool_decide (w_web_search_contexts v ≠ [])) (modify combine_web)
  | OTHER_SEARCH_ENGINE _ => mret tt
  end;;
  when (verbose req && stream req) (
    v ← get;
    combined_web_context ←
      read_local "combined_web_context" (w_combined_web_context v);
    step ←
      attempt (send_step_with_code E (search_done LOCALE_MSG)
                 combined_web_context);
    yield (data_line step)).

Definition web_stage (iv : intent_vars) : Gen web_vars unit :=
  when (v_include_web_search iv && bool_decide (v_search_queries iv ≠ [])) (
    try_except (web_search (v_search_queries iv)) (λ e,
      when (stream req)
        (yield (status_line ("Error during web search: " +:+ e))))).

(** *** Video search (lines 358-402) *)

Definition append_youtube_result (text : string) (v : youtube_vars)
  : youtube_vars :=
  {| y_all_contexts := y_all_contexts v;
     y_youtube_search_contexts := y_youtube_search_contexts v ++ [text];
     y_combined_youtube_context := y_combined_youtube_context v |}.

Definition combine_youtube (v : youtube_vars) : youtube_vars :=
  let combined := join (NL +:+ NL) (y_youtube_search_contexts v) in
  {| y_all_contexts :=
       y_all_contexts v ++ ["=== Youtube Search ===" +:+ NL +:+ combined];
     y_youtube_search_contexts := y_youtube_search_contexts v;
     y_combined_youtube_context := Some combined |}.

Definition youtube_search (enriched_query : string)
    (search_queries : list string) : Gen youtube_vars unit :=
  for_enumerate 0 search_queries (λ i query,
    when (stream req) (yield (status_line
      (progress (searching_YouTube LOCALE_MSG) i search_queries query)));;
    mcp_result ←
      invoke (search_youtube_videos_call (include_mcp_server req) enriched_query)
             (if include_mcp_server req
              then youtube_mcp_search_youtube_videos E i enriched_query
              else youtube_search_youtube_videos E i enriched_query);
    when (truthy mcp_result)
      (modify (append_youtube_result (default "" mcp_result)));;
    v ← get;
    when (bool_decide (y_youtube_search_contexts v ≠ []))
      (modify combine_youtube);;
    mret Continue);;
  when (verbose req && stream req) (
    v ← get;
    combined_youtube_context ←
      read_local "combined_youtube_context" (y_combined_youtube_context v);
    step ←
      attempt (send_step_with_code E (YouTube_done LOCALE_MSG)
                 combined_youtube_context);
    yield (data_line step)).

Definition youtube_stage (iv : intent_vars) : Gen youtube_vars unit :=
  when (v_include_ytb_search iv) (
    try_except (youtube_search (v_enriched_query iv) (v_search_queries iv))
      (λ e,
        when (stream req)
          (yield (status_line (": Error during Youtube MCP search: " +:+ e))))).

(** *** Document search (lines 404-508) *)

Definition doc_vars_init (all_contexts : list string) : doc_vars :=
  {| d_all_contexts := all_contexts;
     d_doc_contexts := [];
     d_combined_doc_context := "";
     d_seen_documents := ∅;
     d_current_total_length := 0 |}.

(** The outer loop over the planned queries (lines 415-489). *)
Definition search_all_documents (search_queries : list string)
  : Gen doc_vars unit :=
  for_enumerate 0 search_queries (λ i query,
    when (stream req) (yield (status_line
      (progress (ai_search_context LOCALE_MSG) i search_queries query)));;
    ai_search_result ←
      invoke (search_documents_call query) (search_documents E i query);
    found ← decode ai_search_result;
    match found with
    | Some data =>
        when (bool_decide (status data = Some "success") &&
              bool_decide (documents data ≠ []))
          (admit_documents i (documents data))
    | None => mret tt
    end;;
    v ← get;
    if bool_decide (MAX_CONTEXT_LENGTH ≤ d_current_total_length v)
    then mret Break
    else mret Continue).

Definition document_search (search_queries : list string)
  : Gen doc_vars unit :=
  search_all_documents search_queries;;
  v ← get;
  when (bool_decide (d_doc_contexts v ≠ [])) (modify combine_documents);;
  v ← get;
  let combined_doc_context := d_combined_doc_context v in
  when (verbose req && stream req && bool_decide (combined_doc_context ≠ "")) (
    let truncated_for_display :=
      if bool_decide (200 < len combined_doc_context)
      then slice_to 200 combined_doc_context +:+ "... [truncated for display]"
      else combined_doc_context in
    step ←
      attempt (send_step_with_code E (ai_search_context_done LOCALE_MSG)
                 truncated_for_display);
    yield (data_line step)).

Definition document_stage (iv : intent_vars) : Gen doc_vars unit :=
  when (include_ai_search req) (
    try_except (document_search (v_search_queries iv)) (λ e,
      when (stream req)
        (yield (status_line ("Error processing documents: " +:+ e))))).

(** *** Answer generation and the whole generator (lines 159-582) *)

Definition answer_messages (user_intent contexts_text enriched_query : string)
  : list (string * string) :=
  let template :=
    if bool_decide (user_intent = "general_query") then GENERAL_ANSWER_PROMPT E
    else if bool_decide (user_intent = "product_query")
         then PRODUCT_ANSWER_PROMPT E
         else GENERAL_ANSWER_PROMPT E in
  [("system", template (today E) contexts_text enriched_query (locale req));
   ("user", enriched_query)].

(** Prompt assembly and generation (lines 510-577). *)
Definition generate_answer (iv : intent_vars) (contexts : list string)
  : Gen unit unit :=
  let max_tokens := default (MAX_TOKENS E) (max_tokens req) in
  let temperature := default (DEFAULT_TEMPERATURE E) (temperature req) in
  when (stream req) (yield (status_line (answering LOCALE_MSG)));;
  let all_contexts :=
    if bool_decide (contexts ≠ []) then contexts
    else ["No relevant context found."] in
  let contexts_text := join NL all_contexts in
  yield (" " +:+ NL);;
  user_intent ← read_local "user_intent" (v_user_intent iv);
  let answer_messages :=
    answer_messages user_intent contexts_text (v_enriched_query iv) in
  (if stream req then
     response ←
       invoke (chat_completions_create_call answer_messages max_tokens
                 temperature true)
              (chat_completions_create_stream E answer_messages max_tokens
                 temperature);
     yield_chunks response.1;;
     match response.2 with
     | Some e => mthrow e
     | None => mret tt
     end
   else
     message_content ←
       invoke (chat_completions_create_call answer_messages max_tokens
                 temperature false)
              (chat_completions_create E answer_messages max_tokens
                 temperature);
     yield message_content);;
  yield NL;;
  when (elapsed_time req) (
    yield NL;;
    yield ("Plan search response generated successfully in " +:+
           total_seconds E +:+ " seconds " +:+ NL)).

Definition web_vars_init : web_vars :=
  {| w_all_contexts := [];
     w_web_search_contexts := [];
     w_combined_web_context := None |}.

Definition youtube_vars_init (all_contexts : list string) : youtube_vars :=
  {| y_all_contexts := all_contexts;
     y_youtube_search_contexts := [];
     y_combined_youtube_context := None |}.

(** The body of the outer [try] (lines 160-577). *)
Definition generate_response_body : Gen unit unit :=
  if bool_decide (last_user_message (messages req) = "No question provided")
  then yield (input_needed LOCALE_MSG)
  else
    when (stream req) (yield (status_line (analyzing LOCALE_MSG)));;
    iv ← scope intent_vars_init intent_stage;
    wv ← scope web_vars_init (web_stage iv);
    yv ← scope (youtube_vars_init (w_all_contexts wv)) (youtube_stage iv);
    dv ← scope (doc_vars_init (y_all_contexts yv)) (document_stage iv);
    generate_answer iv (d_all_contexts dv).

(** The generator with the handler of its outer [try] (lines 159-582). *)
Definition generate_response_gen : Gen unit unit :=
  try_except generate_response_body (λ e, yield ("Error: " +:+ e)).

(** Everything the generator yields and invokes, in order. *)
Definition generate_response : list event :=
  events (generate_response_gen tt).

End generate_response.

(** ** Observations on a run *)

Definition is_planning_call (c : call) : bool :=
  match c with generate_search_plan_call _ _ _ => true | _ => false end.

Definition is_web_call (c : call) : bool :=
  match c with
  | grounding_search_multi_query_call _ _ _ _ | search_single_query_call _ _ => true
  | _ => false
  end.

Definition is_video_call (c : call) : bool :=
  match c with search_youtube_videos_call _ _ => true | _ => false end.

Definition is_document_call (c : call) : bool :=
  match c with search_documents_call _ => true | _ => false end.

Definition is_completion_call (c : call) : bool :=
  match c with chat_completions_create_call _ _ _ _ => true | _ => false end.


(** The fragments that consuming the chunks of a streamed completion yields
    (lines 564-566). *)
Definition delivered (chunks : list (option string)) : list string :=
  omap (λ chunk, if truthy chunk then chunk else None) chunks.

(** Every event a computation produces satisfies [P]. *)
Definition emits {St A} (P : event → Prop) (m : Gen St A) : Prop :=
  ∀ s, Forall P (events (m s)).

(** A computation keeps the invariant [I] of its local variables, whether it
    returns or raises. *)
Definition preserves {St A} (I : St → Prop) (m : Gen St A) : Prop :=
  ∀ s, I s → I (final (m s)).

(** A computation never raises. *)
Definition returns {St A} (m : Gen St A) : Prop :=
  ∀ s, ∃ a, outcome (m s) = Ret a.

(** The events a stage may produce before the answer is generated: status
    lines, and invocations other than of the completion client. *)
Definition before_answer (e : event) : Prop :=
  match e with
  | Yield fragment => String.prefix "data: " fragment = true
  | Invoke c => is_completion_call c = false
  end.

(** Every invocation among the events satisfies [R]. *)
Definition only_calls (R : call → Prop) (e : event) : Prop :=
  match e with
  | Yield _ => True
  | Invoke c => R c
  end.


(** ** What the document stage maintains *)

(** The texts of a cut document, as the two branches of lines 453-466 produce
    them. *)
Definition capped_content (d : doc) (text : string) : Prop :=
  ∃ c, d !! "content" = Some c ∧ c ≠ "" ∧
       ((len c ≤ 10000 ∧ text = c) ∨
        (10000 < len c ∧ text = slice_to 10000 c +:+ "... [truncated]")).

Definition capped_summary (d : doc) (text : string) : Prop :=
  truthy (d !! "content") = false ∧
  ∃ s, d !! "summary" = Some s ∧ s ≠ "" ∧ text = slice_to 10000 s.

(** [sum(len(text) for text in texts)] *)
Definition total_length (texts : list string) : Z :=
  foldr (λ text n, len text + n) 0 texts.

(** ** Where an admitted text comes from *)

(** The document [d] stands at position [doc_idx] (from 1) among the documents
    the inner loop goes through for the search query at position [i] (from
    0): that search returned a decoded result with the status [success], and
    [d] is one of its first two documents. *)
Definition retrieved (E : Collaborators) (search_queries : list string)
    (i doc_idx : nat) (d : doc) : Prop :=
  ∃ query data k,
    search_queries !! i = Some query ∧
    search_documents E i query = Ret (Decoded data) ∧
    status data = Some "success" ∧
    take 2 (documents data) !! k = Some d ∧
    doc_idx = S k.

(** The identity of a retrieved document, in words: its [id]; else its
    [title]; else its [url]; else a token made of the position of the query
    and the position of the document.  An [id] or a [title] that is empty
    counts as missing. *)
Inductive identified (i doc_idx : nat) (d : doc) : string → Prop :=
| identified_by_id (id : string) :
    d !! "id" = Some id → id ≠ "" → identified i doc_idx d id
| identified_by_title (title : string) :
    truthy (d !! "id") = false →
    d !! "title" = Some title → title ≠ "" → identified i doc_idx d title
| identified_by_url (url : string) :
    truthy (d !! "id") = false → truthy (d !! "title") = false →
    d !! "url" = Some url → identified i doc_idx d url
| identified_by_position :
    truthy (d !! "id") = false → truthy (d !! "title") = false →
    d !! "url" = None →
    identified i doc_idx d ("doc_" +:+ pretty i +:+ "_" +:+ pretty doc_idx).

(** One text of the aggregate with the document it was taken from. *)
Record admission : Type := {
  a_query : nat;
  a_position : nat;
  a_document : doc;
  a_identity : string;
  a_text : string
}.

(** [admitted] lists, in order, the texts of the aggregate, each with the
    retrieved document it is the text of and with that document's identity;
    the identities are pairwise distinct and all seen. *)
Definition admissions_of (E : Collaborators) (search_queries : list string)
    (admitted : list admission) (v : doc_vars) : Prop :=
  d_doc_contexts v = a_text <$> admitted ∧
  d_current_total_length v = total_length (a_text <$> admitted) ∧
  NoDup (a_identity <$> admitted) ∧
  (∀ a, a ∈ admitted → a_identity a ∈ d_seen_documents v) ∧
  Forall (λ a,
            retrieved E search_queries (a_query a) (a_position a)
              (a_document a) ∧
            a_identity a =
              doc_identity (a_query a) (a_position a) (a_document a) ∧
            content_to_add (a_document a) = Some (a_text a))
         admitted.

(** ** Progress lines that raise (lines 220-222, 259-261) *)

(** [json.dumps(intent_data, ...) if intent_data else "{}"] *)
Definition intent_data_str (E : Collaborators) (d : gmap string string)
  : string :=
  if bool_decide (d ≠ ∅) then json_dumps_intent E d else "{}".

(** [json.dumps(plan_data, ...) if plan_data else "{}"] *)
Definition plan_data_str (E : Collaborators) (p : gmap string (list string))
  : string :=
  if bool_decide (p ≠ ∅) then json_dumps_plan E p else "{}".

(** The line that shows [code] is produced, and producing it raises: the
    request is verbose and streams, and [code] cannot be encoded. *)
Definition step_line_raises (E : Collaborators) (req : Request)
    (code : string) : bool :=
  verbose req && stream req &&
  match b64encode E code with
  | Ret _ => false
  | Raise _ => true
  end.

(** ** The final generation call (lines 513-560) *)

(** The local variables the intent stage leaves behind. *)
Definition understood (E : Collaborators) (req : Request) : intent_vars :=
  final (intent_stage E req (intent_vars_init req)).

(** The contexts the three retrieval stages leave behind. *)
Definition collected (E : Collaborators) (req : Request) : list string :=
  let iv := understood E req in
  let wv := final (web_stage E req iv web_vars_init) in
  let yv := final (youtube_stage E req iv
                     (youtube_vars_init (w_all_contexts wv))) in
  d_all_contexts
    (final (document_stage E req iv (doc_vars_init (y_all_contexts yv)))).



(** ** Further observations *)

(** From a state that satisfies [P] a computation ends, returning or
    raising, in a state that satisfies [Q]. *)
Definition leads {St A} (P Q : St → Prop) (m : Gen St A) : Prop :=
  ∀ s, P s → Q (final (m s)).

(** The contexts [after] are the contexts [before], or these and one more
    block: one of the [labels], a line feed and a body that is not empty. *)
Definition one_block_more (labels : list string) (before after : list string)
  : Prop :=
  after = before ∨
  ∃ label body,
    label ∈ labels ∧ body ≠ "" ∧ after = before ++ [label +:+ NL +:+ body].

(** The variables hold what the classification [d] assigns (lines 207-212). *)
Definition classified (d : gmap string string) (question : string)
    (v : intent_vars) : Prop :=
  v_user_intent v = Some (default "general_query" (d !! "user_intent")) ∧
  v_enriched_query v = default question (d !! "enriched_query") ∧
  v_resource_group_name v = d !! "resource_group_name".



(** The results a crawl over the queries finds, in query order: the value of
    every search that returns one. *)
Fixpoint crawl_results (E : Collaborators) (locale : option string)
    (start : nat) (search_queries : list string) : list string :=
  match search_queries with
  | [] => []
  | query :: rest =>
      match search_single_query E start query locale with
      | Ret search_result =>
          if truthy search_result then [default "" search_result] else []
      | Raise _ => []
      end ++ crawl_results E locale (S start) rest
  end.

(** ** Releasing resources: [cleanup] (lines 584-609) *)

(** What [cleanup] looks at, in the order it does. *)
Inductive resource : Type :=
| youtube_plugin
| youtube_mcp_plugin
| intent_plan_plugin
| grounding_plugin
| client.

Definition released_in_order : list resource :=
  [youtube_plugin; youtube_mcp_plugin; intent_plan_plugin; grounding_plugin;
   client].

(** A resource has no hook ([hasattr] is false), or a hook ([cleanup], for
    the client [close]) that returns or raises. *)
Abbreviation hooks := (resource → option (result unit)).

(** The statements [if hasattr(r, hook): await r.hook()] for the resources
    [rs]: the hooks invoked, and how the sequence ends. *)
Fixpoint release (hook : hooks) (rs : list resource)
  : list resource * result unit :=
  match rs with
  | [] => ([], Ret tt)
  | r :: rest =>
      match hook r with
      | None => release hook rest
      | Some (Ret _) =>
          let '(invoked, end_) := release hook rest in (r :: invoked, end_)
      | Some (Raise e) => ([r], Raise e)
      end
  end.

(** [cleanup]: the hooks invoked, whether the final pause is reached, and
    the exception logged, if any.  Nothing is raised. *)
Record cleaned : Type := {
  invoked : list resource;
  paused : bool;
  logged : option exn
}.

Definition cleanup (hook : hooks) : cleaned :=
  match release hook released_in_order with
  | (rs, Ret _) => {| invoked := rs; paused := true; logged := None |}
  | (rs, Raise e) => {| invoked := rs; paused := false; logged := Some e |}
  end.

(** ** Sample collaborators and requests *)

Module Sample.

Definition table : LocaleMsg := {|
  input_needed := "Please enter a question.";
  analyzing := "Analyzing";
  analyze_complete := "Analysis complete";
  intent_small_talk := "Small talk";
  search_planning := "Planning";
  plan_done := "Plan complete";
  searching := "Searching";
  search_keyword := "keyword";
  search_done := "Search complete";
  searching_YouTube := "Searching YouTube";
  YouTube_done := "YouTube complete";
  ai_search_context := "Searching documents";
  ai_search_context_done := "Documents complete";
  answering := "Answering" |}.

(** Collaborators whose prompt templates hand the contexts through
    unchanged. *)
Definition collaborators
    (intent : result (value (gmap string string)))
    (plan : result (value (gmap string (list string))))
    (video : nat → string → result (option string))
    (docs : nat → string → result (value search_data))
    (completion : result string) : Collaborators := {|
  MAX_TOKENS := 4000;
  DEFAULT_TEMPERATURE := (7 # 10)%Q;
  LOCALE_MESSAGES := ∅;
  LOCALE_MESSAGES_ko_KR := table;
  today := "2025-01-01";
  total_seconds := "1.5";
  b64encode := λ code, Ret code;
  json_dumps_intent := λ _, "{...}";
  json_dumps_plan := λ _, "{...}";
  GENERAL_ANSWER_PROMPT := λ _ contexts _ _, contexts;
  PRODUCT_ANSWER_PROMPT := λ _ contexts _ _, contexts;
  analyze_intent := λ _ _, intent;
  generate_search_plan := λ _ _ _, plan;
  grounding_search_multi_query := λ _ _ _ _, Ret None;
  search_single_query := λ _ _ _, Ret None;
  youtube_search_youtube_videos := video;
  youtube_mcp_search_youtube_videos := video;
  search_documents := docs;
  chat_completions_create := λ _ _ _, completion;
  chat_completions_create_stream := λ _ _ _,
    match completion with
    | Ret text => Ret ([Some text], None)
    | Raise e => Raise e
    end |}.

Definition request (msgs : list ChatMessage)
    (web ytb ai : bool) : Request := {|
  messages := msgs;
  max_tokens := None;
  temperature := None;
  query_rewrite := true;
  planning := true;
  search_engine := BING_SEARCH_CRAWLING;
  stream := false;
  elapsed_time := false;
  locale := Some "en-US";
  include_web_search := web;
  include_ytb_search := ytb;
  include_mcp_server := true;
  include_ai_search := ai;
  verbose := false |}.

Definition ask (question : string) : list ChatMessage :=
  [ {| role := "user"; content := question |} ].

Definition no_video : nat → string → result (option string) :=
  λ _ _, Ret None.

Definition no_docs : nat → string → result (value search_data) :=
  λ _ _, Ret NoValue.

(** [n] copies of a character. *)
Fixpoint copies (c : ascii) (n : nat) : string :=
  match n with
  | O => ""
  | S n' => String c (copies c n')
  end.

Definition filler (c : ascii) (n : Z) : string := copies c (Z.to_nat n).

Definition one_document (d : doc) : result (value search_data) :=
  Ret (Decoded {| status := Some "success"; documents := [d] |}).

Definition two_documents (d1 d2 : doc) : result (value search_data) :=
  Ret (Decoded {| status := Some "success"; documents := [d1; d2] |}).

Definition with_content (id text : string) : doc :=
  {[ "id" := id; "content" := text ]}.

(** Forty documents fill the aggregate up to one character below the
    ceiling; the next one is too long, the one after it is short. *)
Definition crowded_index : nat → string → result (value search_data) :=
  λ i _,
    if bool_decide (i < 19)%nat then
      two_documents
        (with_content ("a" +:+ pretty i) (filler "a" 10000))
        (with_content ("b" +:+ pretty i) (filler "a" 10000))
    else if bool_decide (i = 19)%nat then
      two_documents
        (with_content "a19" (filler "a" 10000))
        (with_content "b19" (filler "a" 9999))
    else if bool_decide (i = 20)%nat then
      one_document (with_content "long" (filler "b" 10000))
    else
      one_document (with_content "late" "x").

Definition small_talk : result (value (gmap string string)) :=
  Ret (Decoded {[ "user_intent" := "small_talk";
                  "enriched_query" := "hello there";
                  "search_query" := "hello" ]}).

Definition general_query : result (value (gmap string string)) :=
  Ret (Decoded {[ "user_intent" := "general_query";
                  "enriched_query" := "e";
                  "search_query" := "s" ]}).

Definition two_queries : result (value (gmap string (list string))) :=
  Ret (Decoded {[ "search_queries" := ["a"; "b"] ]}).

Definition videos : nat → string → result (option string) :=
  λ i _, Ret (Some ("video " +:+ pretty i)).

(** A request with planning of twenty-two queries over [crowded_index]. *)
Definition crowded : Collaborators :=
  collaborators general_query
    (Ret (Decoded {[ "search_queries" := replicate 22 "q" ]}))
    no_video crowded_index (Ret "answer").

Definition documents_only : Request :=
  request (ask "question") false false true.

(** A document that has only a summary, one character over the cap. *)
Definition summarised : doc :=
  {[ "id" := "s"; "summary" := filler "s" 10001 ]}.

(** A document whose content has 12,000 characters. *)
Definition long_document : doc := with_content "l" (filler "c" 12000).

(** Two queries that both find the document [same]. *)
Definition same : doc := with_content "same" "text".

Definition repeating : Collaborators :=
  collaborators general_query two_queries no_video
    (λ _ _, one_document same) (Ret "answer").

(** A request whose only user message is empty. *)
Definition empty_question : Request := request (ask "") false false false.

Definition answering_machine : Collaborators :=
  collaborators general_query two_queries no_video no_docs (Ret "answer").

(** A classifier that finds small talk, over an index with one document. *)
Definition chatty : Collaborators :=
  collaborators small_talk two_queries videos
    (λ _ _, one_document same) (Ret "answer").

Definition everything : Request := request (ask "hi") true true true.

(** A classifier that raises. *)
Definition unclassified : Collaborators :=
  collaborators (Raise "classifier unavailable") two_queries videos
    (λ _ _, one_document same) (Ret "answer").

(** A completion client that raises. *)
Definition speechless : Collaborators :=
  collaborators general_query two_queries videos
    (λ _ _, one_document same) (Raise "model unavailable").

(** A planner with two queries over a video search that always answers. *)
Definition video_library : Collaborators :=
  collaborators general_query two_queries videos no_docs (Ret "answer").

Definition videos_only : Request := request (ask "question") false true false.

End Sample.

(** ** Further requests and collaborators *)

Module Scenario.

(** A classification as a product question in a resource group. *)
Definition product : gmap string string :=
  {[ "user_intent" := "product_query";
     "enriched_query" := "which phone";
     "search_query" := "phone";
     "resource_group_name" := "rg" ]}.

Definition shop : Collaborators :=
  Sample.collaborators (Ret (Decoded product)) Sample.two_queries
    Sample.videos (λ _ _, Sample.one_document Sample.same) (Ret "answer").

(** A classifier that returns nothing. *)
Definition mute : Collaborators :=
  Sample.collaborators (Ret NoValue) Sample.two_queries
    Sample.videos (λ _ _, Sample.one_document Sample.same) (Ret "answer").

(** [E] with other web searches. *)
Definition with_web (E : Collaborators)
    (single : nat → string → option string → result (option string))
    (grounding : list string → Z → Q → option string → result (option string))
  : Collaborators := {|
  MAX_TOKENS := MAX_TOKENS E;
  DEFAULT_TEMPERATURE := DEFAULT_TEMPERATURE E;
  LOCALE_MESSAGES := LOCALE_MESSAGES E;
  LOCALE_MESSAGES_ko_KR := LOCALE_MESSAGES_ko_KR E;
  today := today E;
  total_seconds := total_seconds E;
  b64encode := b64encode E;
  json_dumps_intent := json_dumps_intent E;
  json_dumps_plan := json_dumps_plan E;
  GENERAL_ANSWER_PROMPT := GENERAL_ANSWER_PROMPT E;
  PRODUCT_ANSWER_PROMPT := PRODUCT_ANSWER_PROMPT E;
  analyze_intent := analyze_intent E;
  generate_search_plan := generate_search_plan E;
  grounding_search_multi_query := grounding;
  search_single_query := single;
  youtube_search_youtube_videos := youtube_search_youtube_videos E;
  youtube_mcp_search_youtube_videos := youtube_mcp_search_youtube_videos E;
  search_documents := search_documents E;
  chat_completions_create := chat_completions_create E;
  chat_completions_create_stream := chat_completions_create_stream E |}.

(** [E] with another rendering of the classification and another codec. *)
Definition with_codec (E : Collaborators)
    (dumps : gmap string string → string) (codec : string → result string)
  : Collaborators := {|
  MAX_TOKENS := MAX_TOKENS E;
  DEFAULT_TEMPERATURE := DEFAULT_TEMPERATURE E;
  LOCALE_MESSAGES := LOCALE_MESSAGES E;
  LOCALE_MESSAGES_ko_KR := LOCALE_MESSAGES_ko_KR E;
  today := today E;
  total_seconds := total_seconds E;
  b64encode := codec;
  json_dumps_intent := dumps;
  json_dumps_plan := json_dumps_plan E;
  GENERAL_ANSWER_PROMPT := GENERAL_ANSWER_PROMPT E;
  PRODUCT_ANSWER_PROMPT := PRODUCT_ANSWER_PROMPT E;
  analyze_intent := analyze_intent E;
  generate_search_plan := generate_search_plan E;
  grounding_search_multi_query := grounding_search_multi_query E;
  search_single_query := search_single_query E;
  youtube_search_youtube_videos := youtube_search_youtube_videos E;
  youtube_mcp_search_youtube_videos := youtube_mcp_search_youtube_videos E;
  search_documents := search_documents E;
  chat_completions_create := chat_completions_create E;
  chat_completions_create_stream := chat_completions_create_stream E |}.

(** [E] with another streamed completion. *)
Definition with_stream (E : Collaborators)
    (streamed : result (list (option string) * option exn))
  : Collaborators := {|
  MAX_TOKENS := MAX_TOKENS E;
  DEFAULT_TEMPERATURE := DEFAULT_TEMPERATURE E;
  LOCALE_MESSAGES := LOCALE_MESSAGES E;
  LOCALE_MESSAGES_ko_KR := LOCALE_MESSAGES_ko_KR E;
  today := today E;
  total_seconds := total_seconds E;
  b64encode := b64encode E;
  json_dumps_intent := json_dumps_intent E;
  json_dumps_plan := json_dumps_plan E;
  GENERAL_ANSWER_PROMPT := GENERAL_ANSWER_PROMPT E;
  PRODUCT_ANSWER_PROMPT := PRODUCT_ANSWER_PROMPT E;
  analyze_intent := analyze_intent E;
  generate_search_plan := generate_search_plan E;
  grounding_search_multi_query := grounding_search_multi_query E;
  search_single_query := search_single_query E;
  youtube_search_youtube_videos := youtube_search_youtube_videos E;
  youtube_mcp_search_youtube_videos := youtube_mcp_search_youtube_videos E;
  search_documents := search_documents E;
  chat_completions_create := chat_completions_create E;
  chat_completions_create_stream := λ _ _ _, streamed |}.

(** A web search that finds a page for every query but [b], and a grounding
    search that finds one text for all queries. *)
Definition crawler : Collaborators :=
  with_web Sample.answering_machine
    (λ _ query _,
       Ret (if bool_decide (query = "b") then None
            else Some ("page on " +:+ query)))
    (λ _ _ _ _, Ret (Some "grounded facts")).

(** A document search that raises from its second call on. *)
Definition flaky : Collaborators :=
  Sample.collaborators Sample.general_query Sample.two_queries Sample.no_video
    (λ i _, if bool_decide (i = 0)%nat then Sample.one_document Sample.same
            else Raise "index unavailable")
    (Ret "answer").

(** A classification as small talk whose enriched query holds a lone
    surrogate, written as the escape [\ud83d] that [json.loads] turns into
    one. *)
Definition chat : gmap string string :=
  {[ "user_intent" := "small_talk";
     "enriched_query" := "hello \ud83d";
     "search_query" := "hello" ]}.

(** [json.dumps(chat, ensure_ascii=False, indent=2)], without its quotes. *)
Definition chat_str : string :=
  "{ user_intent: small_talk, enriched_query: hello \ud83d, search_query: hello }".

(** [str(e)] of the [UnicodeEncodeError] that [chat_str.encode('utf-8')]
    raises. *)
Definition surrogates_not_allowed : exn :=
  "'utf-8' codec can't encode character '\ud83d' in position 57: surrogates not allowed".

(** The classifier answers [chat]; web, video and document search all find
    something; the codec raises on the rendering of [chat]. *)
Definition garbled : Collaborators :=
  with_codec
    (with_web
       (Sample.collaborators (Ret (Decoded chat)) Sample.two_queries
          Sample.videos (λ _ _, Sample.one_document Sample.same)
          (Ret "answer"))
       (λ _ query _, Ret (Some ("page on " +:+ query)))
       (λ _ _ _ _, Ret (Some "grounded facts")))
    (λ _, chat_str)
    (λ code, if bool_decide (code = chat_str)
             then Raise surrogates_not_allowed else Ret code).

(** A streamed completion that breaks off after two chunks with content. *)
Definition interrupted : Collaborators :=
  with_stream shop
    (Ret ([Some "par"; None; Some "tial"], Some "connection lost")).


Definition request (engine : SearchEngine)
    (planned streamed timed wordy web ytb ai : bool) : Request := {|
  messages := Sample.ask "question";
  max_tokens := None;
  temperature := None;
  query_rewrite := true;
  planning := planned;
  search_engine := engine;
  stream := streamed;
  elapsed_time := timed;
  locale := Some "en-US";
  include_web_search := web;
  include_ytb_search := ytb;
  include_mcp_server := true;
  include_ai_search := ai;
  verbose := wordy |}.

(** Nothing switched on. *)
Definition bare : Request :=
  request BING_SEARCH_CRAWLING false false false false false false false.

(** Planning without retrieval. *)
Definition unaided : Request :=
  request BING_SEARCH_CRAWLING true false false false false false false.

(** Without streaming, verbose and timed. *)
Definition timed : Request :=
  request BING_SEARCH_CRAWLING true false true true true true true.

(** With streaming, verbose and timed. *)
Definition streamed : Request :=
  request BING_SEARCH_CRAWLING true true true true true true true.

Definition crawling : Request :=
  request BING_GROUNDING_CRAWLING true true false false true false false.

Definition grounding : Request :=
  request BING_GROUNDING true false false false true false false.

Definition verbose_grounding : Request :=
  request BING_GROUNDING true true false true true false false.

(** The variables the intent stage leaves behind. *)
Definition planned (E : Collaborators) (req : Request) : intent_vars :=
  final (intent_stage E req (intent_vars_init req)).

(** Every resource has a hook that returns, but the second video plugin,
    which has none. *)
Definition tidy : hooks :=
  λ r, match r with
       | youtube_mcp_plugin => None
       | _ => Some (Ret tt)
       end.

(** The hook of the intent plugin raises. *)
Definition stuck : hooks :=
  λ r, match r with
       | youtube_mcp_plugin => None
       | intent_plan_plugin => Some (Raise "plugin unavailable")
       | _ => Some (Ret tt)
       end.

End Scenario.

(** * Properties *)

(** ** Running computations *)




Lemma run_scope {St St' A} (init : St') (m : Gen St' A) (s : St) a :
  outcome (m init) = Ret a →
  scope init m s = (events (m init), s, Ret (final (m init))).
Proof.
  unfold scope. destruct (m init) as [[ev s'] [a'|e]]; simpl; done.
Qed.



(** ** Rules for [emits] *)

Section emits.
Context {St : Type} (P : event → Prop).

Lemma emits_ret {A} (a : A) : emits (St:=St) P (mret a).
Proof. intros s. constructor. Qed.

Lemma emits_throw {A} (e : exn) : emits (St:=St) (A:=A) P (mthrow e).
Proof. intros s. constructor. Qed.

Lemma emits_get : emits (St:=St) P get.
Proof. intros s. constructor. Qed.

Lemma emits_attempt {A} (r : result A) : emits (St:=St) P (attempt r).
Proof. intros s. constructor. Qed.

Lemma emits_modify (f : St → St) : emits P (modify f).
Proof. intros s. constructor. Qed.

Lemma emits_yield (fragment : string) :
  P (Yield fragment) → emits (St:=St) P (yield fragment).
Proof. intros H s. by repeat constructor. Qed.

Lemma emits_invoke {A} (c : call) (answer : result A) :
  P (Invoke c) → emits (St:=St) P (invoke c answer).
Proof. intros H s. by repeat constructor. Qed.

Lemma emits_bind {A B} (m : Gen St A) (k : A → Gen St B) :
  emits P m → (∀ a, emits P (k a)) → emits P (m ≫= k).
Proof.
  intros Hm Hk s. specialize (Hm s). unfold mbind, gen_bind.
  destruct (m s) as [[ev s'] [a|e]]; simpl in *; [|done].
  specialize (Hk a s'). destruct (k a s') as [[ev' s''] r]; simpl in *.
  by apply Forall_app.
Qed.

Lemma emits_when (b : bool) (m : Gen St unit) :
  emits P m → emits P (when b m).
Proof. destruct b; [done|]. intros _. apply emits_ret. Qed.

Lemma emits_try {A} (m : Gen St A) (h : exn → Gen St A) :
  emits P m → (∀ e, emits P (h e)) → emits P (try_except m h).
Proof.
  intros Hm Hh s. specialize (Hm s). unfold try_except.
  destruct (m s) as [[ev s'] [a|e]]; simpl in *; [done|].
  specialize (Hh e s'). destruct (h e s') as [[ev' s''] r]; simpl in *.
  by apply Forall_app.
Qed.

Lemma emits_read_local {A} name (v : option A) :
  emits (St:=St) P (read_local name v).
Proof. destruct v; [apply emits_ret | apply emits_throw]. Qed.

Lemma emits_decode {A} (v : value A) : emits (St:=St) P (decode v).
Proof. destruct v; [apply emits_ret | apply emits_throw | apply emits_ret]. Qed.

Lemma emits_for {A} (body : nat → A → Gen St ctl) xs start :
  (∀ i x, emits P (body i x)) → emits P (for_enumerate start xs body).
Proof.
  intros Hbody. revert start.
  induction xs as [|x xs IH]; intros start; simpl; [apply emits_ret|].
  apply emits_bind; [done|]. intros [|]; [apply IH | apply emits_ret].
Qed.

Lemma emits_yield_chunks chunks :
  (∀ fragment, P (Yield fragment)) → emits (St:=St) P (yield_chunks chunks).
Proof.
  intros HP. induction chunks as [|c chunks IH]; simpl; [apply emits_ret|].
  apply emits_bind; [|done]. apply emits_when, emits_yield, HP.
Qed.

Lemma emits_scope {St' A} (init : St') (m : Gen St' A) :
  emits P m → emits (St:=St) P (scope init m).
Proof.
  intros Hm s. specialize (Hm init). unfold scope.
  by destruct (m init) as [[ev s'] [a|e]].
Qed.
End emits.


Create HintDb gen discriminated.

#[global] Hint Resolve emits_ret emits_throw emits_get emits_attempt
  emits_modify emits_read_local emits_decode : gen.

(** Breaks a computation into its statements. *)
Ltac emits_step :=
  lazymatch goal with
  | |- emits _ (_ ≫= _) => apply emits_bind; [|intros ?]
  | |- emits _ (when _ _) => apply emits_when
  | |- emits _ (try_except _ _) => apply emits_try; [|intros ?]
  | |- emits _ (for_enumerate _ _ _) => apply emits_for; intros ? ?
  | |- emits _ (yield _) => apply emits_yield
  | |- emits _ (invoke _ _) => apply emits_invoke
  | |- emits _ (scope _ _) => apply emits_scope
  | |- emits _ (match ?x with _ => _ end) => destruct x
  | |- emits _ _ => solve [auto with gen]
  end.

(** ** Rules for [preserves] and [returns] *)

Section preserves.
Context {St : Type} (I : St → Prop).

Lemma preserves_ret {A} (a : A) : preserves I (mret a).
Proof. by intros s. Qed.

Lemma preserves_throw {A} (e : exn) : preserves (A:=A) I (mthrow e).
Proof. by intros s. Qed.

Lemma preserves_get : preserves I get.
Proof. by intros s. Qed.

Lemma preserves_attempt {A} (r : result A) : preserves I (attempt r).
Proof. by intros s. Qed.

Lemma preserves_yield fragment : preserves I (yield fragment).
Proof. by intros s. Qed.

Lemma preserves_invoke {A} c (answer : result A) :
  preserves I (invoke c answer).
Proof. by intros s. Qed.

Lemma preserves_modify (f : St → St) :
  (∀ s, I s → I (f s)) → preserves I (modify f).
Proof. intros Hf s. apply Hf. Qed.

Lemma preserves_bind {A B} (m : Gen St A) (k : A → Gen St B) :
  preserves I m → (∀ a, preserves I (k a)) → preserves I (m ≫= k).
Proof.
  intros Hm Hk s Hs. specialize (Hm s Hs). unfold mbind, gen_bind.
  destruct (m s) as [[ev s'] [a|e]]; simpl in *; [|done].
  specialize (Hk a s' Hm). by destruct (k a s') as [[ev' s''] r].
Qed.

Lemma preserves_when (b : bool) (m : Gen St unit) :
  preserves I m → preserves I (when b m).
Proof. destruct b; [done|]. intros _. apply preserves_ret. Qed.

Lemma preserves_when_guard (b : bool) (m : Gen St unit) :
  (b = true → preserves I m) → preserves I (when b m).
Proof. destruct b; [by intros H; apply H|]. intros _. apply preserves_ret. Qed.

Lemma preserves_try {A} (m : Gen St A) (h : exn → Gen St A) :
  preserves I m → (∀ e, preserves I (h e)) → preserves I (try_except m h).
Proof.
  intros Hm Hh s Hs. specialize (Hm s Hs). unfold try_except.
  destruct (m s) as [[ev s'] [a|e]]; simpl in *; [done|].
  specialize (Hh e s' Hm). by destruct (h e s') as [[ev' s''] r].
Qed.

Lemma preserves_read_local {A} name (v : option A) :
  preserves I (read_local name v).
Proof. destruct v; [apply preserves_ret | apply preserves_throw]. Qed.

Lemma preserves_decode {A} (v : value A) : preserves I (decode v).
Proof.
  destruct v; [apply preserves_ret | apply preserves_throw | apply preserves_ret].
Qed.

Lemma preserves_for {A} (body : nat → A → Gen St ctl) xs start :
  (∀ i x, preserves I (body i x)) → preserves I (for_enumerate start xs body).
Proof.
  intros Hbody. revert start.
  induction xs as [|x xs IH]; intros start; simpl; [apply preserves_ret|].
  apply preserves_bind; [done|]. intros [|]; [apply IH | apply preserves_ret].
Qed.

(** The same rules, keeping what the program knows at that point: the value
    an invocation returned, the value that was decoded, the element a loop
    is at. *)
Lemma preserves_invoke_bind {A B} c (answer : result A) (k : A → Gen St B) :
  (∀ a, answer = Ret a → preserves I (k a)) →
  preserves I (invoke c answer ≫= k).
Proof.
  intros Hk s Hs. unfold mbind, gen_bind, invoke.
  destruct answer as [a|e]; simpl; [|done].
  specialize (Hk a eq_refl s Hs). by destruct (k a s) as [[ev' s''] r].
Qed.

Lemma preserves_decode_bind {A B} (v : value A) (k : option A → Gen St B) :
  (∀ a, v = Decoded a → preserves I (k (Some a))) →
  (v = NoValue → preserves I (k None)) →
  preserves I (decode v ≫= k).
Proof.
  intros Hsome Hnone s Hs. unfold mbind, gen_bind, decode.
  destruct v as [|e|a]; simpl; [|done|].
  - specialize (Hnone eq_refl s Hs). by destruct (k None s) as [[ev' s''] r].
  - specialize (Hsome a eq_refl s Hs).
    by destruct (k (Some a) s) as [[ev' s''] r].
Qed.

Lemma preserves_for_lookup {A} (body : nat → A → Gen St ctl) xs start :
  (∀ k x, xs !! k = Some x → preserves I (body (start + k)%nat x)) →
  preserves I (for_enumerate start xs body).
Proof.
  revert start.
  induction xs as [|x xs IH]; intros start Hbody; simpl; [apply preserves_ret|].
  apply preserves_bind.
  - specialize (Hbody 0%nat x eq_refl). by rewrite Nat.add_0_r in Hbody.
  - intros [|]; [|apply preserves_ret]. apply IH. intros k x' Hk.
    specialize (Hbody (S k) x' Hk). by rewrite Nat.add_succ_r in Hbody.
Qed.
End preserves.

Section returns.
Context {St : Type}.

Lemma returns_ret {A} (a : A) : returns (St:=St) (mret a).
Proof. intros s. by exists a. Qed.

Lemma returns_get : returns (St:=St) get.
Proof. intros s. by exists s. Qed.

Lemma returns_modify (f : St → St) : returns (modify f).
Proof. intros s. by exists tt. Qed.

Lemma returns_yield fragment : returns (St:=St) (yield fragment).
Proof. intros s. by exists tt. Qed.

Lemma returns_bind {A B} (m : Gen St A) (k : A → Gen St B) :
  returns m → (∀ a, returns (k a)) → returns (m ≫= k).
Proof.
  intros Hm Hk s. destruct (Hm s) as [a Ha]. unfold mbind, gen_bind.
  destruct (m s) as [[ev s'] o]; simpl in *; subst o.
  destruct (Hk a s') as [b Hb]. destruct (k a s') as [[ev' s''] r].
  by exists b.
Qed.

Lemma returns_when (b : bool) (m : Gen St unit) :
  returns m → returns (when b m).
Proof. destruct b; [done|]. intros _. apply returns_ret. Qed.

Lemma returns_try {A} (m : Gen St A) (h : exn → Gen St A) :
  (∀ e, returns (h e)) → returns (try_except m h).
Proof.
  intros Hh s. unfold try_except.
  destruct (m s) as [[ev s'] [a|e]]; simpl; [by exists a|].
  destruct (Hh e s') as [b Hb]. destruct (h e s') as [[ev' s''] r].
  by exists b.
Qed.
End returns.

(** ** Strings *)

Lemma append_cons (a : ascii) (s1 s2 : string) :
  String a s1 +:+ s2 = String a (s1 +:+ s2).
Proof. reflexivity. Qed.

Lemma prefix_append (p s : string) : String.prefix p (p +:+ s) = true.
Proof.
  induction p as [|a p IH]; [by destruct s|].
  rewrite append_cons. simpl. by destruct (Ascii.ascii_dec a a).
Qed.

Lemma length_append (s1 s2 : string) :
  String.length (s1 +:+ s2) = (String.length s1 + String.length s2)%nat.
Proof.
  induction s1 as [|a s1 IH]; [done|]. rewrite append_cons. simpl. by rewrite IH.
Qed.

Lemma length_substring_0 (n : nat) (s : string) :
  String.length (String.substring 0 n s) = (n `min` String.length s)%nat.
Proof.
  revert s. induction n as [|n IH]; intros [|a s]; simpl; try done.
  by rewrite IH.
Qed.


Lemma len_append (s1 s2 : string) : len (s1 +:+ s2) = len s1 + len s2.
Proof. unfold len. rewrite length_append. lia. Qed.

Lemma len_slice_to (n : Z) (s : string) :
  0 ≤ n → len (slice_to n s) = n `min` len s.
Proof. intros ?. unfold len, slice_to. rewrite length_substring_0. lia. Qed.

Lemma len_nonneg (s : string) : 0 ≤ len s.
Proof. unfold len. lia. Qed.

Lemma len_empty (s : string) : len s = 0 ↔ s = "".
Proof. unfold len. destruct s; simpl; split; intros; (done || lia). Qed.

Lemma truthy_Some (v : option string) :
  truthy v = true ↔ ∃ s, v = Some s ∧ s ≠ "".
Proof.
  destruct v as [s|]; simpl.
  - rewrite bool_decide_eq_true. split.
    + intros ?. by exists s.
    + by intros (s' & [= <-] & ?).
  - split; [done|]. by intros (s & ? & ?).
Qed.

(** ** The text of a document *)

Lemma content_to_add_capped (d : doc) (text : string) :
  content_to_add d = Some text → capped_content d text ∨ capped_summary d text.
Proof.
  unfold content_to_add, MAX_DOCUMENT_LENGTH, TRUNCATED.
  destruct (truthy (d !! "content")) eqn:Hcontent.
  - apply truthy_Some in Hcontent as (c & Hd & Hc). rewrite Hd. simpl.
    case_bool_decide; intros [= <-]; left; exists c; split_and!; try done.
    + right. by split.
    + left. split; [lia|done].
  - destruct (truthy (d !! "summary")) eqn:Hsummary; [|done].
    apply truthy_Some in Hsummary as (s & Hd & Hs). rewrite Hd. simpl.
    intros [= <-]. right. split; [done|]. by exists s.
Qed.

Lemma slice_to_nonempty (n : Z) (s : string) :
  0 < n → s ≠ "" → slice_to n s ≠ "".
Proof.
  intros Hn Hs. unfold slice_to.
  destruct (Z.to_nat n) as [|k] eqn:Hk; [lia|]. by destruct s.
Qed.

Lemma content_to_add_nonempty (d : doc) (text : string) :
  content_to_add d = Some text → text ≠ "".
Proof.
  intros [(c & _ & Hc & [[_ ->]|[_ ->]])|(_ & s & _ & Hs & ->)]%content_to_add_capped;
    [done| |by apply slice_to_nonempty].
  intros Hempty%len_empty. rewrite len_append in Hempty.
  pose proof (len_nonneg (slice_to 10000 c)).
  assert (len "... [truncated]" = 15) by reflexivity. lia.
Qed.

Lemma content_to_add_len (d : doc) (text : string) :
  content_to_add d = Some text → len text ≤ 10015.
Proof.
  intros [(c & _ & Hc & [[? ->]|[? ->]])|(_ & s & _ & Hs & ->)]%content_to_add_capped.
  - lia.
  - rewrite len_append, len_slice_to by lia.
    assert (len "... [truncated]" = 15) by reflexivity. lia.
  - rewrite len_slice_to by lia. lia.
Qed.


(** ** The inner loop over the documents of one query *)

Lemma admit_document_run (i doc_idx : nat) (d : doc) (v : doc_vars) :
  admit_document i doc_idx d v =
    let doc_id := doc_identity i doc_idx d in
    if bool_decide (doc_id ∈ d_seen_documents v) then ([], v, Ret Continue)
    else
      match content_to_add d with
      | None => ([], see_document doc_id v, Ret Continue)
      | Some text =>
          if truthy (Some text) &&
             bool_decide (d_current_total_length v + len text ≤ MAX_CONTEXT_LENGTH)
          then ([], add_document text (see_document doc_id v), Ret Continue)
          else ([], see_document doc_id v, Ret Break)
      end.
Proof.
  unfold admit_document, mbind, gen_bind, get, modify, mret, gen_ret. simpl.
  repeat case_match; simplify_eq/=; try done; congruence.
Qed.

Lemma total_length_snoc (texts : list string) (text : string) :
  total_length (texts ++ [text]) = total_length texts + len text.
Proof.
  unfold total_length. induction texts as [|t texts IH]; simpl; lia.
Qed.


(** A document at a position has one identity. *)
Lemma identified_unique (i doc_idx : nat) (d : doc) (id1 id2 : string) :
  identified i doc_idx d id1 → identified i doc_idx d id2 → id1 = id2.
Proof.
  assert (∀ k s, d !! k = Some s → s ≠ "" → truthy (d !! k) = true)
    as Htruthy.
  { intros k s Hk Hs. apply truthy_Some. by exists s. }
  intros [id Hid Hnonempty | title Hid Htitle Hnonempty | url Hid Htitle Hurl |
          Hid Htitle Hurl];
    intros [id' Hid' Hnonempty' | title' Hid' Htitle' Hnonempty' |
            url' Hid' Htitle' Hurl' | Hid' Htitle' Hurl'];
    try congruence;
    repeat match goal with
    | H : d !! ?k = Some ?s, H' : ?s ≠ "" |- _ =>
        apply (Htruthy k s H) in H'
    end; congruence.
Qed.

Lemma admissions_of_see E search_queries (admitted : list admission)
    (id : string) (v : doc_vars) :
  admissions_of E search_queries admitted v →
  admissions_of E search_queries admitted (see_document id v).
Proof.
  intros (Htexts & Htotal & Hnodup & Hseen & Horigin).
  split_and!; try done. intros a Ha. simpl.
  apply elem_of_union. right. by apply Hseen.
Qed.

Lemma admissions_of_add E search_queries (admitted : list admission)
    (i doc_idx : nat) (d : doc) (text : string) (v : doc_vars) :
  let a := {| a_query := i; a_position := doc_idx; a_document := d;
              a_identity := doc_identity i doc_idx d; a_text := text |} in
  retrieved E search_queries i doc_idx d →
  doc_identity i doc_idx d ∉ d_seen_documents v →
  content_to_add d = Some text →
  admissions_of E search_queries admitted v →
  admissions_of E search_queries (admitted ++ [a])
    (add_document text (see_document (doc_identity i doc_idx d) v)).
Proof.
  intros a Hretrieved Hfresh Htext (Htexts & Htotal & Hnodup & Hseen & Horigin).
  unfold admissions_of. rewrite !fmap_app. split_and!.
  - simpl. by rewrite Htexts.
  - simpl. by rewrite total_length_snoc, Htotal.
  - apply NoDup_app. split_and!; [done| |apply NoDup_singleton].
    intros id (a' & -> & Ha')%list_elem_of_fmap Hid%list_elem_of_singleton.
    simpl in Hid. apply Hfresh. rewrite <-Hid. by apply Hseen.
  - intros a'. rewrite elem_of_app. simpl. rewrite elem_of_union.
    intros [?| ->%list_elem_of_singleton].
    + right. by apply Hseen.
    + left. by apply elem_of_singleton.
  - apply Forall_app. split; [done|]. by apply Forall_singleton.
Qed.

Lemma admit_document_admissions E search_queries (i doc_idx : nat) (d : doc) :
  retrieved E search_queries i doc_idx d →
  preserves (λ v, ∃ admitted, admissions_of E search_queries admitted v)
    (admit_document i doc_idx d).
Proof.
  intros Hretrieved v [admitted Hagg]. rewrite admit_document_run. simpl.
  case_bool_decide as Hseen; [by exists admitted|].
  destruct (content_to_add d) as [text|] eqn:Htext; simpl.
  - destruct (_ && _); simpl.
    + eexists. by apply admissions_of_add.
    + exists admitted. by apply admissions_of_see.
  - exists admitted. by apply admissions_of_see.
Qed.

Lemma admit_document_total (i doc_idx : nat) (d : doc) (v : doc_vars) :
  d_current_total_length v ≤ MAX_CONTEXT_LENGTH →
  d_current_total_length (final (admit_document i doc_idx d v)) ≤ MAX_CONTEXT_LENGTH.
Proof.
  intros Hv. rewrite admit_document_run. simpl.
  case_bool_decide as Hseen; [done|].
  destruct (content_to_add d) as [text|]; simpl; [|done].
  destruct (bool_decide (text ≠ "")); simpl; [|done].
  case_bool_decide; simpl; done.
Qed.

(** ** The outer loop over the planned queries *)

(** Breaks a computation into its statements. *)
Ltac preserves_step :=
  lazymatch goal with
  | |- preserves _ (_ ≫= _) => apply preserves_bind; [|intros ?]
  | |- preserves _ (when _ _) => apply preserves_when
  | |- preserves _ (try_except _ _) => apply preserves_try; [|intros ?]
  | |- preserves _ (for_enumerate _ _ _) => apply preserves_for; intros ? ?
  | |- preserves _ (yield _) => apply preserves_yield
  | |- preserves _ (invoke _ _) => apply preserves_invoke
  | |- preserves _ (attempt _) => apply preserves_attempt
  | |- preserves _ (decode _) => apply preserves_decode
  | |- preserves _ (mret _) => apply preserves_ret
  | |- preserves _ get => apply preserves_get
  | |- preserves _ (match ?x with _ => _ end) => destruct x
  end.

Lemma search_all_documents_preserves (I : doc_vars → Prop) E req search_queries :
  (∀ i doc_idx d, preserves I (admit_document i doc_idx d)) →
  preserves I (search_all_documents E req search_queries).
Proof.
  intros Hstep. unfold search_all_documents, admit_documents.
  repeat preserves_step; apply Hstep.
Qed.

(** What holds of the local variables as long as the documents the searches
    return keep it, holds when the loop ends. *)
Lemma search_all_documents_retrieved (I : doc_vars → Prop) E req
    search_queries :
  (∀ i doc_idx d,
     retrieved E search_queries i doc_idx d →
     preserves I (admit_document i doc_idx d)) →
  preserves I (search_all_documents E req search_queries).
Proof.
  intros Hstep. unfold search_all_documents.
  apply preserves_for_lookup. intros i query Hquery. simpl.
  apply preserves_bind; [apply preserves_when, preserves_yield|]. intros _.
  apply preserves_invoke_bind. intros ai_search_result Hresult.
  apply preserves_decode_bind.
  - intros data ->.
    apply preserves_bind; [|intros _; repeat preserves_step].
    apply preserves_when_guard.
    intros [Hstatus%bool_decide_eq_true _]%andb_prop.
    unfold admit_documents. apply preserves_for_lookup. intros k d Hd.
    apply Hstep. by exists query, data, k.
  - intros _. repeat preserves_step.
Qed.

Lemma search_all_documents_admissions E req search_queries all_contexts :
  ∃ admitted,
    admissions_of E search_queries admitted
      (final (search_all_documents E req search_queries
                (doc_vars_init all_contexts))).
Proof.
  apply (search_all_documents_retrieved
           (λ v, ∃ admitted, admissions_of E search_queries admitted v)).
  - intros i doc_idx d. apply admit_document_admissions.
  - exists []. split_and!; simpl; [done | done | constructor | | constructor].
    by intros a ?%elem_of_nil.
Qed.

(** The running total never passes the ceiling. *)
Lemma running_total_within_ceiling E req search_queries all_contexts :
  d_current_total_length
    (final (search_all_documents E req search_queries (doc_vars_init all_contexts)))
  ≤ MAX_CONTEXT_LENGTH.
Proof.
  apply (search_all_documents_preserves
           (λ v, d_current_total_length v ≤ MAX_CONTEXT_LENGTH)); [|done].
  intros i doc_idx d v. apply admit_document_total.
Qed.

(** ** Deduplication, truncation and the global ceiling *)


(** The same document found by two queries enters the aggregate once. *)
Example same_document_twice :
  let v := final (search_all_documents Sample.repeating Sample.documents_only
                    ["a"; "b"] (doc_vars_init [])) in
  d_doc_contexts v = ["text"] ∧ d_current_total_length v = 4.
Proof. by vm_compute. Qed.

(** X23.  Every text in the aggregate is the text of a document that a
    search returned: its non-empty content, whole when that has at most
    10,000 characters and else cut to its first 10,000 characters followed
    by the marker; or, for a document without such content, its non-empty
    summary cut to its first 10,000 characters, with no marker. *)
Theorem admitted_text_follows_its_document E req search_queries all_contexts :
  let v := final (search_all_documents E req search_queries
                    (doc_vars_init all_contexts)) in
  ∃ admitted : list admission,
    d_doc_contexts v = a_text <$> admitted ∧
    Forall (λ a,
              retrieved E search_queries (a_query a) (a_position a)
                (a_document a) ∧
              (capped_content (a_document a) (a_text a) ∨
               capped_summary (a_document a) (a_text a)))
           admitted.
Proof.
  intros v.
  destruct (search_all_documents_admissions E req search_queries all_contexts)
    as (admitted & Htexts & _ & _ & _ & Horigin).
  exists admitted. split; [done|].
  eapply Forall_impl; [exact Horigin|].
  intros a (Hretrieved & _ & Htext). split; [done|].
  by apply content_to_add_capped.
Qed.

(** Two documents without [id] that carry the same title: the text of the
    second stays out, whatever it says. *)
Example same_title_other_text :
  let index :=
    Sample.collaborators Sample.general_query Sample.two_queries
      Sample.no_video
      (λ i _, Sample.one_document
                {[ "title" := "T";
                   "content" := if bool_decide (i = 0)%nat
                                then "first" else "second" ]})
      (Ret "answer") in
  let v := final (search_all_documents index Sample.documents_only
                    ["a"; "b"] (doc_vars_init [])) in
  d_doc_contexts v = ["first"] ∧ d_current_total_length v = 5.
Proof. by vm_compute. Qed.

(** C4, the defect.  A content of more than 10,000 characters enters the
    aggregate cut to its first 10,000 characters and followed by the marker
    (lines 458-459): 12,000 characters become 10,015.  A summary is cut at
    the same length and enters without the marker (line 465): of 10,001
    characters the first 10,000 are admitted and nothing says that the text
    was cut. *)
Theorem cut_summary_carries_no_marker :
  let index d :=
    Sample.collaborators Sample.general_query Sample.two_queries
      Sample.no_video (λ _ _, Sample.one_document d) (Ret "answer") in
  let aggregate d :=
    d_doc_contexts
      (final (search_all_documents (index d) Sample.documents_only ["q"]
                (doc_vars_init []))) in
  Sample.long_document !! "content" = Some (Sample.filler "c" 12000) ∧
  aggregate Sample.long_document =
    [Sample.filler "c" 10000 +:+ "... [truncated]"] ∧
  Sample.summarised !! "content" = None ∧
  Sample.summarised !! "summary" = Some (Sample.filler "s" 10001) ∧
  aggregate Sample.summarised = [Sample.filler "s" 10000] ∧
  len (Sample.filler "s" 10000) < len (Sample.filler "s" 10001).
Proof. intros index aggregate. split_and!; by vm_compute. Qed.

(** C1, the defect.  Forty documents bring the running total to 399,999
    characters; the next document would exceed the ceiling and is dropped, and
    yet the query after it has its one-character document admitted. *)
Theorem ceiling_reopens_for_later_queries :
  let iv := final (intent_stage Sample.crowded Sample.documents_only
                     (intent_vars_init Sample.documents_only)) in
  let v := final (document_stage Sample.crowded Sample.documents_only iv
                    (doc_vars_init [])) in
  length (v_search_queries iv) = 22%nat ∧
  (Sample.filler "b" 10000 ∉ d_doc_contexts v) ∧
  length (d_doc_contexts v) = 41%nat ∧
  last (d_doc_contexts v) = Some "x" ∧
  d_current_total_length v = 400000.
Proof.
  intros iv v.
  assert (bool_decide (Sample.filler "b" 10000 ∈ d_doc_contexts v) = false)
    as Hdropped by (by vm_compute).
  apply bool_decide_eq_false in Hdropped.
  split; [by vm_compute|]. split; [exact Hdropped|].
  split; [by vm_compute|]. split; by vm_compute.
Qed.

(** ** What the stages emit *)

Section stage_events.
Context (E : Collaborators) (req : Request) (P : event → Prop).
Hypothesis status_ok : ∀ label, P (Yield (status_line label)).
Hypothesis data_ok : ∀ step, P (Yield (data_line step)).

Lemma intent_stage_emits :
  (∀ q l, P (Invoke (analyze_intent_call q l))) →
  (∀ u q l, P (Invoke (generate_search_plan_call u q l))) →
  emits P (intent_stage E req).
Proof using status_ok data_ok.
  intros Hintent Hplan.
  unfold intent_stage, analyze_and_plan, intent_fallback.
  repeat emits_step; auto.
Qed.

Lemma web_stage_emits iv :
  (∀ qs m t l, P (Invoke (grounding_search_multi_query_call qs m t l))) →
  (∀ q l, P (Invoke (search_single_query_call q l))) →
  emits P (web_stage E req iv).
Proof using status_ok data_ok.
  intros Hgrounding Hsingle. unfold web_stage, web_search.
  repeat emits_step; auto.
Qed.

Lemma youtube_stage_emits iv :
  (∀ mcp q, P (Invoke (search_youtube_videos_call mcp q))) →
  emits P (youtube_stage E req iv).
Proof using status_ok data_ok.
  intros Hvideo. unfold youtube_stage, youtube_search.
  repeat emits_step; auto.
Qed.

Lemma document_stage_emits iv :
  (∀ q, P (Invoke (search_documents_call q))) →
  emits P (document_stage E req iv).
Proof using status_ok data_ok.
  intros Hdocs.
  unfold document_stage, document_search, search_all_documents, admit_documents.
  repeat emits_step; auto.
  intros v. rewrite admit_document_run. simpl. repeat case_match; constructor.
Qed.
End stage_events.

(** ** The stages never raise *)

Lemma intent_stage_returns E req : returns (intent_stage E req).
Proof.
  apply returns_try. intros e. unfold intent_fallback.
  apply returns_bind; [apply returns_get|]. intros v.
  apply returns_bind; [apply returns_modify|]. intros _.
  apply returns_when, returns_yield.
Qed.

Lemma web_stage_returns E req iv : returns (web_stage E req iv).
Proof.
  apply returns_when, returns_try. intros e. apply returns_when, returns_yield.
Qed.

Lemma youtube_stage_returns E req iv : returns (youtube_stage E req iv).
Proof.
  apply returns_when, returns_try. intros e. apply returns_when, returns_yield.
Qed.

Lemma document_stage_returns E req iv : returns (document_stage E req iv).
Proof.
  apply returns_when, returns_try. intros e. apply returns_when, returns_yield.
Qed.

(** ** The generator, stage by stage *)

Lemma run_try_bind {St A B} (m : Gen St A) (k : A → Gen St B) h s ev s' a :
  m s = (ev, s', Ret a) →
  try_except (m ≫= k) h s =
    (ev ++ events (try_except (k a) h s'),
     final (try_except (k a) h s'), outcome (try_except (k a) h s')).
Proof.
  intros Hm. unfold try_except, mbind, gen_bind. rewrite Hm.
  destruct (k a s') as [[ev' s''] [b|e]]; simpl; [done|].
  destruct (h e s'') as [[ev'' s'''] r]; simpl. by rewrite app_assoc.
Qed.

Lemma run_when_yield {St} (b : bool) (fragment : string) (s : St) :
  when b (yield fragment) s = (if b then [Yield fragment] else [], s, Ret tt).
Proof. by destruct b. Qed.

Lemma run_stage {St St'} (init : St') (m : Gen St' unit) (s : St) :
  returns m → scope init m s = (events (m init), s, Ret (final (m init))).
Proof. intros Hm. destruct (Hm init) as [a Ha]. by eapply run_scope. Qed.

Lemma generate_response_run E req :
  last_user_message (messages req) ≠ "No question provided" →
  let iv := final (intent_stage E req (intent_vars_init req)) in
  let wv := final (web_stage E req iv web_vars_init) in
  let yv := final (youtube_stage E req iv
                     (youtube_vars_init (w_all_contexts wv))) in
  let dv := final (document_stage E req iv
                     (doc_vars_init (y_all_contexts yv))) in
  generate_response E req =
    (if stream req
     then [Yield (status_line (analyzing (LOCALE_MSG E req)))] else []) ++
    events (intent_stage E req (intent_vars_init req)) ++
    events (web_stage E req iv web_vars_init) ++
    events (youtube_stage E req iv (youtube_vars_init (w_all_contexts wv))) ++
    events (document_stage E req iv (doc_vars_init (y_all_contexts yv))) ++
    events (try_except (generate_answer E req iv (d_all_contexts dv))
              (λ e, yield ("Error: " +:+ e)) tt).
Proof.
  intros Hquestion iv wv yv dv.
  unfold generate_response, generate_response_gen, generate_response_body.
  rewrite bool_decide_eq_false_2 by done.
  erewrite run_try_bind by apply run_when_yield. simpl.
  erewrite run_try_bind by apply run_stage, intent_stage_returns. simpl.
  erewrite run_try_bind by apply run_stage, web_stage_returns. simpl.
  erewrite run_try_bind by apply run_stage, youtube_stage_returns. simpl.
  erewrite run_try_bind by apply run_stage, document_stage_returns. simpl.
  reflexivity.
Qed.

Lemma generate_response_without_question E req :
  last_user_message (messages req) = "No question provided" →
  generate_response E req = [Yield (input_needed (LOCALE_MSG E req))].
Proof.
  intros Hquestion. unfold generate_response, generate_response_gen, generate_response_body.
  by rewrite bool_decide_eq_true_2.
Qed.

(** ** Observing events *)

Lemma yields_app (ev1 ev2 : list event) :
  yields (ev1 ++ ev2) = yields ev1 ++ yields ev2.
Proof. apply omap_app. Qed.


Lemma calls_app (ev1 ev2 : list event) :
  calls (ev1 ++ ev2) = calls ev1 ++ calls ev2.
Proof. apply omap_app. Qed.

Lemma Forall_calls (R : call → Prop) (ev : list event) :
  Forall (only_calls R) ev → Forall R (calls ev).
Proof.
  induction 1 as [|[fragment|c] ev He _ IH]; simpl; [constructor|done|].
  by constructor.
Qed.


Lemma filter_none {A} (P : A → Prop) `{∀ x, Decision (P x)} (l : list A) :
  Forall (λ x, ¬ P x) l → filter P l = [].
Proof.
  induction 1 as [|x l Hx _ IH]; [done|]. by rewrite filter_cons_False.
Qed.

Lemma filter_calls_none (f : call → bool) (ev : list event) :
  Forall (only_calls (λ c, f c = false)) ev →
  filter (λ c, f c) (calls ev) = [].
Proof.
  intros Hev. apply filter_none, Forall_calls.
  eapply Forall_impl; [exact Hev|].
  intros [fragment|c]; simpl; [done|]. intros Hc Htrue. by rewrite Hc in Htrue.
Qed.


Lemma status_line_is_status (label : string) :
  String.prefix "data: " (status_line label) = true.
Proof. apply (prefix_append "data: "). Qed.

Lemma data_line_is_status (step : string) :
  String.prefix "data: " (data_line step) = true.
Proof. apply (prefix_append "data: "). Qed.

(** ** Intent analysis *)

Lemma last_user_message_missing (msgs : list ChatMessage) :
  (∀ m, m ∈ msgs → role m ≠ "user") →
  last_user_message msgs = "No question provided".
Proof.
  intros Hnone. unfold last_user_message. rewrite filter_reverse.
  assert (filter (λ m, role m = "user") msgs = []) as ->; [|done].
  induction msgs as [|m msgs IH]; [done|].
  rewrite filter_cons_False by (apply Hnone; left).
  apply IH. intros m' Hm'. apply Hnone. by right.
Qed.

Lemma intent_stage_failure E req e :
  analyze_intent E (last_user_message (messages req)) (locale req) = Raise e →
  intent_stage E req (intent_vars_init req) =
    (Invoke (analyze_intent_call (last_user_message (messages req)) (locale req))
       :: (if stream req
           then [Yield (status_line "Intent analysis failed, using fallback")]
           else []),
     assign_search_queries [last_user_message (messages req)]
       (intent_vars_init req),
     Ret tt).
Proof.
  intros Hintent.
  unfold intent_stage, try_except, analyze_and_plan, intent_fallback.
  unfold mbind, gen_bind, invoke. rewrite Hintent. simpl.
  by destruct (stream req).
Qed.

(** What every proof by cases on the flags and on the codec unfolds. *)
Ltac run_stage_by_cases :=
  unfold try_except, mbind, gen_bind, invoke, attempt, decode, modify, get,
    when, read_local, yield, mret, gen_ret, mthrow, gen_throw,
    send_step_with_code.

Lemma intent_stage_small_talk E req d :
  analyze_intent E (last_user_message (messages req)) (locale req) =
    Ret (Decoded d) →
  d !! "user_intent" = Some "small_talk" →
  step_line_raises E req (intent_data_str E d) = false →
  final (intent_stage E req (intent_vars_init req)) =
    disable_search
      (assign_intent d (last_user_message (messages req))
         (intent_vars_init req)) ∧
  calls (events (intent_stage E req (intent_vars_init req))) =
    [analyze_intent_call (last_user_message (messages req)) (locale req)].
Proof.
  intros Hintent Huser. unfold step_line_raises, intent_data_str.
  unfold intent_stage, analyze_and_plan, intent_fallback. run_stage_by_cases.
  rewrite Hintent.
  destruct (verbose req), (stream req); simpl;
    try destruct (b64encode E _); simpl; rewrite ?Huser; simpl; done.
Qed.

(** When the line that shows the classification raises, the handler of the
    stage takes over before any statement after line 222: the flags stay as
    the caller passed them and the enriched query is the only search
    query. *)
Lemma intent_stage_line_raises E req d :
  analyze_intent E (last_user_message (messages req)) (locale req) =
    Ret (Decoded d) →
  step_line_raises E req (intent_data_str E d) = true →
  final (intent_stage E req (intent_vars_init req)) =
    assign_search_queries
      [default (last_user_message (messages req)) (d !! "enriched_query")]
      (assign_intent d (last_user_message (messages req))
         (intent_vars_init req)) ∧
  calls (events (intent_stage E req (intent_vars_init req))) =
    [analyze_intent_call (last_user_message (messages req)) (locale req)].
Proof.
  intros Hintent. unfold step_line_raises, intent_data_str.
  unfold intent_stage, analyze_and_plan, intent_fallback. run_stage_by_cases.
  rewrite Hintent.
  destruct (verbose req), (stream req); simpl; try done;
    destruct (b64encode E _); simpl; done.
Qed.

(** ** Answer generation *)

Lemma generate_answer_emits E req iv contexts (P : event → Prop) :
  (∀ fragment, P (Yield fragment)) →
  (∀ msgs m t s, P (Invoke (chat_completions_create_call msgs m t s))) →
  emits P (try_except (generate_answer E req iv contexts)
             (λ e, yield ("Error: " +:+ e))).
Proof.
  intros Hyield Hcall. unfold generate_answer.
  repeat emits_step; auto. by apply emits_yield_chunks.
Qed.

Lemma generate_answer_unbound E req iv contexts :
  v_user_intent iv = None →
  try_except (generate_answer E req iv contexts)
    (λ e, yield ("Error: " +:+ e)) tt =
    ((if stream req
      then [Yield (status_line (answering (LOCALE_MSG E req)))] else []) ++
     [Yield (" " +:+ NL);
      Yield ("Error: " +:+ UnboundLocalError "user_intent")],
     tt, Ret tt).
Proof.
  intros Hunbound. unfold generate_answer, try_except.
  unfold mbind, gen_bind, when, read_local, yield, mret, gen_ret.
  rewrite Hunbound. by destruct (stream req).
Qed.

(** ** Requests without a question *)

(** C7, as the code has it.  When no message of the request has the role
    [user], the generator yields the locale's input-needed message and
    nothing else, and invokes no collaborator.  (A user message whose content
    is empty is a question like any other.) *)
Theorem no_user_message_yields_input_needed E req :
  (∀ m, m ∈ messages req → role m ≠ "user") →
  generate_response E req = [Yield (input_needed (LOCALE_MSG E req))].
Proof.
  intros Hnone. apply generate_response_without_question.
  by apply last_user_message_missing.
Qed.

Lemma no_user_message_yields_input_needed_witness :
  let req := Sample.request [ {| role := "assistant"; content := "Hello." |} ]
               true true true in
  (∀ m, m ∈ messages req → role m ≠ "user") ∧
  generate_response Sample.answering_machine req =
    [Yield "Please enter a question."].
Proof.
  intros req.
  assert (∀ m, m ∈ messages req → role m ≠ "user") as Hnone.
  { intros m [->|[]%elem_of_nil]%elem_of_cons. by vm_compute. }
  split; [exact Hnone|].
  exact (no_user_message_yields_input_needed Sample.answering_machine req Hnone).
Defined.

(** C7, as stated, fails: an empty user message is classified, planned for
    and answered. *)
Lemma empty_user_message_is_processed :
  generate_response Sample.answering_machine Sample.empty_question =
    [Invoke (analyze_intent_call "" (Some "en-US"));
     Invoke (generate_search_plan_call "general_query" "e" (Some "en-US"));
     Yield (" " +:+ NL);
     Invoke (chat_completions_create_call
               [("system", "No relevant context found."); ("user", "e")]
               4000 (7 # 10)%Q false);
     Yield "answer";
     Yield NL] ∧
  generate_response Sample.answering_machine Sample.empty_question ≠
    [Yield (input_needed
              (LOCALE_MSG Sample.answering_machine Sample.empty_question))].
Proof. split; by vm_compute. Qed.

(** ** Small talk *)

Lemma small_talk_calls E req d :
  analyze_intent E (last_user_message (messages req)) (locale req) =
    Ret (Decoded d) →
  d !! "user_intent" = Some "small_talk" →
  step_line_raises E req (intent_data_str E d) = false →
  Forall (λ c, is_planning_call c = false ∧ is_web_call c = false ∧
               is_video_call c = false)
    (calls (generate_response E req)).
Proof.
  intros Hintent Huser Hline.
  destruct (intent_stage_small_talk E req d Hintent Huser Hline)
    as [Hiv Hcalls].
  destruct (decide (last_user_message (messages req) = "No question provided"))
    as [Hnone|Hquestion].
  { rewrite generate_response_without_question by done. constructor. }
  rewrite generate_response_run by done.
  rewrite !calls_app, Hcalls. repeat apply Forall_app_2.
  - destruct (stream req); by repeat constructor.
  - by repeat constructor.
  - unfold web_stage. rewrite Hiv. simpl. constructor.
  - unfold youtube_stage. rewrite Hiv. simpl. constructor.
  - apply Forall_calls. by apply document_stage_emits.
  - apply Forall_calls. by apply generate_answer_emits.
Qed.

(** X22.  When the classifier returns the intent [small_talk] and the line
    that shows the classification does not raise, the stage leaves
    [planning], [include_web_search] and [include_ytb_search] false whatever
    the caller passed, and the request invokes neither the planner nor a web
    search nor a video search. *)
Theorem small_talk_gates_search E req d :
  analyze_intent E (last_user_message (messages req)) (locale req) =
    Ret (Decoded d) →
  d !! "user_intent" = Some "small_talk" →
  step_line_raises E req (intent_data_str E d) = false →
  let iv := final (intent_stage E req (intent_vars_init req)) in
  v_planning iv = false ∧
  v_include_web_search iv = false ∧
  v_include_ytb_search iv = false ∧
  Forall (λ c, is_planning_call c = false ∧ is_web_call c = false ∧
               is_video_call c = false)
    (calls (generate_response E req)).
Proof.
  intros Hintent Huser Hline iv.
  destruct (intent_stage_small_talk E req d Hintent Huser Hline)
    as [Hiv _]. fold iv in Hiv.
  split_and!; [by rewrite Hiv ..|].
  by apply (small_talk_calls E req d).
Qed.

Lemma small_talk_gates_search_witness :
  planning Sample.everything = true ∧
  include_web_search Sample.everything = true ∧
  include_ytb_search Sample.everything = true ∧
  let iv := final (intent_stage Sample.chatty Sample.everything
                     (intent_vars_init Sample.everything)) in
  v_planning iv = false ∧
  v_include_web_search iv = false ∧
  v_include_ytb_search iv = false ∧
  Forall (λ c, is_planning_call c = false ∧ is_web_call c = false ∧
               is_video_call c = false)
    (calls (generate_response Sample.chatty Sample.everything)).
Proof.
  pose (d := ({[ "user_intent" := "small_talk";
                 "enriched_query" := "hello there";
                 "search_query" := "hello" ]} : gmap string string)).
  assert (analyze_intent Sample.chatty
            (last_user_message (messages Sample.everything))
            (locale Sample.everything) = Ret (Decoded d)) as Hintent
    by reflexivity.
  assert (d !! "user_intent" = Some "small_talk") as Huser by (by vm_compute).
  assert (step_line_raises Sample.chatty Sample.everything
            (intent_data_str Sample.chatty d) = false) as Hline
    by reflexivity.
  split_and!; [reflexivity ..|].
  exact (small_talk_gates_search Sample.chatty Sample.everything d
           Hintent Huser Hline).
Defined.

(** C8, the defect.  The line that shows the classification (line 222) is
    produced inside the [try] of the stage and before the flags are cleared
    (lines 224-228).  In verbose streaming, when the classification cannot
    be encoded, the handler takes over with the flags as the caller passed
    them: the intent is [small_talk], and yet the web search and the video
    search are invoked. *)
Theorem small_talk_search_survives_failed_step_line :
  let E := Scenario.garbled in
  let req := Scenario.streamed in
  analyze_intent E (last_user_message (messages req)) (locale req) =
    Ret (Decoded Scenario.chat) ∧
  Scenario.chat !! "user_intent" = Some "small_talk" ∧
  v_user_intent (understood E req) = Some "small_talk" ∧
  v_planning (understood E req) = true ∧
  v_include_web_search (understood E req) = true ∧
  v_include_ytb_search (understood E req) = true ∧
  filter (λ c, is_web_call c || is_video_call c)
    (calls (generate_response E req)) =
    [search_single_query_call "hello \ud83d" (Some "en-US");
     search_youtube_videos_call true "hello \ud83d"].
Proof. split_and!; [reflexivity | by vm_compute ..]. Qed.

(** ** Failures *)

(** Up to the generation of the answer, the generator yields status lines
    only and leaves the completion client alone. *)
Lemma generate_response_prefix E req :
  last_user_message (messages req) ≠ "No question provided" →
  ∃ ev contexts,
    Forall before_answer ev ∧
    generate_response E req =
      ev ++ events (try_except
                      (generate_answer E req
                         (final (intent_stage E req (intent_vars_init req)))
                         contexts)
                      (λ e, yield ("Error: " +:+ e)) tt).
Proof.
  intros Hquestion. rewrite generate_response_run by done.
  pose proof status_line_is_status as Hstatus.
  pose proof data_line_is_status as Hdata.
  rewrite !app_assoc. eexists _, _. split; [|reflexivity].
  repeat apply Forall_app_2.
  - destruct (stream req); by repeat constructor.
  - by apply intent_stage_emits.
  - by apply web_stage_emits.
  - by apply youtube_stage_emits.
  - by apply document_stage_emits.
Qed.

Lemma yield_chunks_run {St} (chunks : list (option string)) (s : St) :
  yield_chunks chunks s = (Yield <$> delivered chunks, s, Ret tt).
Proof.
  induction chunks as [|chunk chunks IH]; [done|].
  simpl. unfold mbind, gen_bind, when, yield, mret, gen_ret, delivered. simpl.
  destruct (truthy chunk) eqn:Hchunk; simpl; rewrite IH; [|done].
  by apply truthy_Some in Hchunk as (fragment & -> & _).
Qed.



(** C2, the defect.  When the classifier raises, the fallback does make the
    raw user message the enriched query and the only search query, and the
    retrieval stages run; but [user_intent] is left unbound, so the request
    ends in an error fragment before the completion client is invoked. *)
Theorem classifier_failure_never_reaches_generation E req e :
  last_user_message (messages req) ≠ "No question provided" →
  analyze_intent E (last_user_message (messages req)) (locale req) = Raise e →
  let iv := final (intent_stage E req (intent_vars_init req)) in
  v_enriched_query iv = last_user_message (messages req) ∧
  v_search_queries iv = [last_user_message (messages req)] ∧
  Forall (λ c, is_completion_call c = false) (calls (generate_response E req)) ∧
  last (yields (generate_response E req)) =
    Some ("Error: " +:+ UnboundLocalError "user_intent").
Proof.
  intros Hquestion Hintent iv.
  assert (iv = assign_search_queries [last_user_message (messages req)]
                 (intent_vars_init req)) as Hiv.
  { unfold iv. by rewrite (intent_stage_failure E req e). }
  split_and!; [by rewrite Hiv ..| |];
    destruct (generate_response_prefix E req Hquestion)
      as (ev & contexts & Hev & ->); fold iv;
    rewrite generate_answer_unbound by (by rewrite Hiv); simpl.
  - apply Forall_calls, Forall_app_2.
    + eapply Forall_impl; [exact Hev|]. by intros [fragment|c].
    + destruct (stream req); by repeat constructor.
  - rewrite !yields_app. destruct (stream req); simpl.
    + by rewrite (last_app_cons _ [_; _]).
    + by rewrite (last_app_cons _ [_]).
Qed.

Lemma classifier_failure_never_reaches_generation_witness :
  Forall (λ c, is_completion_call c = false)
    (calls (generate_response Sample.unclassified Sample.everything)) ∧
  last (yields (generate_response Sample.unclassified Sample.everything)) =
    Some ("Error: " +:+ UnboundLocalError "user_intent").
Proof.
  split;
    apply (classifier_failure_never_reaches_generation Sample.unclassified
             Sample.everything "classifier unavailable");
    by vm_compute.
Defined.




Example generation_failure_after_two_fragments :
  delivered [Some "par"; None; Some "tial"] = ["par"; "tial"] ∧
  filter (λ fragment, negb (String.prefix "data: " fragment))
    (yields (generate_response Scenario.interrupted Scenario.streamed)) =
    [" " +:+ NL; "par"; "tial"; "Error: connection lost"].
Proof. split; by vm_compute. Qed.

Example generation_failure_fragments :
  yields (generate_response Sample.speechless Sample.everything) =
    [" " +:+ NL; "Error: model unavailable"].
Proof. by vm_compute. Qed.

(** ** One query, one document *)

Lemma document_stage_one_document E req iv q data d text all_contexts :
  include_ai_search req = true →
  v_search_queries iv = [q] →
  search_documents E 0 q = Ret (Decoded data) →
  status data = Some "success" →
  documents data = [d] →
  content_to_add d = Some text →
  d_all_contexts (final (document_stage E req iv (doc_vars_init all_contexts))) =
    all_contexts ++ ["=== Document Context ===" +:+ NL +:+ text].
Proof.
  intros Hai Hq Hsearch Hstatus Hdocs Htext.
  pose proof (content_to_add_nonempty _ _ Htext) as Hnonempty.
  pose proof (content_to_add_len _ _ Htext) as Hlen.
  pose proof (len_nonneg text) as Hpos.
  unfold document_stage, document_search, search_all_documents, admit_documents.
  rewrite Hai, Hq.
  destruct (stream req), (verbose req); simpl;
  unfold try_except, mbind, gen_bind, invoke, attempt, decode, modify, get,
    when, yield, mret, gen_ret, send_step_with_code;
  rewrite Hsearch, Hstatus, Hdocs; simpl;
  unfold mbind, gen_bind; rewrite admit_document_run; simpl; rewrite Htext; simpl;
  rewrite (bool_decide_eq_true_2 (text ≠ "")) by done;
  rewrite (bool_decide_eq_true_2 (0 + len text ≤ MAX_CONTEXT_LENGTH))
    by (unfold MAX_CONTEXT_LENGTH; lia);
  rewrite (bool_decide_eq_false_2 (doc_identity 0 1 d ∈ ∅)) by apply not_elem_of_empty;
  simpl; unfold mret, gen_ret; simpl;
  repeat (case_bool_decide; simpl); try done;
  destruct (b64encode E _); done.
Qed.

Lemma admit_documents_run i docs v :
  ∃ v', admit_documents i docs v = ([], v', Ret tt).
Proof.
  unfold admit_documents. generalize (take 2 docs) as ds.
  generalize 1%nat as start. intros start ds. revert v start.
  induction ds as [|d ds IH]; intros v start; simpl.
  { exists v. reflexivity. }
  unfold mbind, gen_bind. rewrite admit_document_run. simpl.
  case_bool_decide; simpl.
  { destruct (IH v (S start)) as [v' ->]. by exists v'. }
  destruct (content_to_add d) as [text|]; simpl.
  - destruct (_ && _); simpl; [|by eexists].
    edestruct IH as [v' ->]. by exists v'.
  - edestruct IH as [v' ->]. by exists v'.
Qed.

Lemma document_stage_one_query E req iv q all_contexts :
  include_ai_search req = true →
  v_search_queries iv = [q] →
  calls (events (document_stage E req iv (doc_vars_init all_contexts))) =
    [search_documents_call q].
Proof.
  intros Hai Hq.
  unfold document_stage, document_search, search_all_documents.
  rewrite Hai, Hq.
  destruct (stream req), (verbose req); simpl;
  unfold try_except, mbind, gen_bind, invoke, attempt, decode, modify, get,
    when, yield, mret, gen_ret, send_step_with_code;
  destruct (search_documents E 0 q) as [[|e|data]|e]; simpl; try done.
  all: destruct (bool_decide (status data = _) && _); simpl;
    [destruct (admit_documents_run 0 (documents data)
                 (doc_vars_init all_contexts)) as [v' ->]; simpl|];
    repeat (case_bool_decide; simpl); try done;
    destruct (b64encode E _); done.
Qed.

Lemma generate_answer_calls E req iv contexts u :
  v_user_intent iv = Some u →
  chat_completions_create_call
    (answer_messages E req u
       (join NL (if bool_decide (contexts ≠ []) then contexts
                 else ["No relevant context found."]))
       (v_enriched_query iv))
    (default (MAX_TOKENS E) (max_tokens req))
    (default (DEFAULT_TEMPERATURE E) (temperature req))
    (stream req)
  ∈ calls (events (try_except (generate_answer E req iv contexts)
                     (λ e, yield ("Error: " +:+ e)) tt)).
Proof.
  intros Hbound. unfold generate_answer, try_except.
  unfold mbind, gen_bind, when, read_local, yield, invoke, mret, gen_ret.
  rewrite Hbound. destruct (stream req); simpl.
  - destruct (chat_completions_create_stream _ _ _ _) as [[chunks failure]|e];
      simpl; [|by left].
    destruct (yield_chunks chunks ()) as [[ev s] [[]|e]]; simpl.
    + destruct failure; simpl; destruct (elapsed_time req); simpl; by left.
    + by left.
  - destruct (chat_completions_create _ _ _ _) as [text|e]; simpl; [|by left].
    destruct (elapsed_time req); simpl; by left.
Qed.



(** C10.  When the classifier returns the intent [small_talk] and document
    retrieval is enabled, the document search is still invoked, once: with
    the search query of the classification (the raw user message when the
    classification has none) or, when the line that shows the classification
    raises and the handler of the stage takes over, with the enriched query.
    When that search finds one document with usable text, the prompt sent to
    the completion client carries, last of its contexts, the Document
    Context block made of that text; unless that line raised, the block is
    the only context, and neither the planner nor a web search nor a video
    search has been invoked. *)
Theorem small_talk_keeps_document_search E req d :
  last_user_message (messages req) ≠ "No question provided" →
  analyze_intent E (last_user_message (messages req)) (locale req) =
    Ret (Decoded d) →
  d !! "user_intent" = Some "small_talk" →
  include_ai_search req = true →
  let enriched :=
    default (last_user_message (messages req)) (d !! "enriched_query") in
  let query :=
    if step_line_raises E req (intent_data_str E d) then enriched
    else default (last_user_message (messages req)) (d !! "search_query") in
  filter (λ c, is_document_call c) (calls (generate_response E req)) =
    [search_documents_call query] ∧
  (step_line_raises E req (intent_data_str E d) = false →
   Forall (λ c, is_planning_call c = false ∧ is_web_call c = false ∧
                is_video_call c = false)
     (calls (generate_response E req))) ∧
  ∀ data document text,
    search_documents E 0 query = Ret (Decoded data) →
    status data = Some "success" →
    documents data = [document] →
    content_to_add document = Some text →
    ∃ earlier,
      (step_line_raises E req (intent_data_str E d) = false → earlier = []) ∧
      chat_completions_create_call
        (answer_messages E req "small_talk"
           (join NL (earlier ++ ["=== Document Context ===" +:+ NL +:+ text]))
           enriched)
        (default (MAX_TOKENS E) (max_tokens req))
        (default (DEFAULT_TEMPERATURE E) (temperature req))
        (stream req)
      ∈ calls (generate_response E req).
Proof.
  intros Hquestion Hintent Huser Hai enriched query.
  set (iv := final (intent_stage E req (intent_vars_init req))).
  assert (v_search_queries iv = [query] ∧
          v_user_intent iv = Some "small_talk" ∧
          v_enriched_query iv = enriched ∧
          calls (events (intent_stage E req (intent_vars_init req))) =
            [analyze_intent_call (last_user_message (messages req))
               (locale req)] ∧
          (step_line_raises E req (intent_data_str E d) = false →
           v_include_web_search iv = false ∧ v_include_ytb_search iv = false))
    as (Hqueries & Hbound & Henriched & Hcalls & Hflags).
  { unfold query, iv.
    destruct (step_line_raises E req (intent_data_str E d)) eqn:Hline.
    - destruct (intent_stage_line_raises E req d Hintent Hline) as [-> ->].
      simpl. by rewrite Huser.
    - destruct (intent_stage_small_talk E req d Hintent Huser Hline)
        as [-> ->].
      simpl. by rewrite Huser. }
  split_and!.
  - rewrite generate_response_run by done. fold iv.
    rewrite !calls_app, !filter_app, Hcalls.
    rewrite (document_stage_one_query E req iv query) by done.
    rewrite (filter_calls_none _ (events (web_stage _ _ _ _)))
      by (by apply web_stage_emits).
    rewrite (filter_calls_none _ (events (youtube_stage _ _ _ _)))
      by (by apply youtube_stage_emits).
    rewrite (filter_calls_none _ (events (try_except _ _ _)))
      by (by apply generate_answer_emits).
    by destruct (stream req).
  - intros Hline. by apply (small_talk_calls E req d).
  - intros data document text Hsearch Hstatus Hdocs Htext.
    rewrite generate_response_run by done. fold iv.
    set (wv := final (web_stage E req iv web_vars_init)).
    set (yv := final (youtube_stage E req iv
                        (youtube_vars_init (w_all_contexts wv)))).
    exists (y_all_contexts yv). split.
    + intros Hline. destruct (Hflags Hline) as [Hweb Hytb].
      unfold yv, wv, youtube_stage, web_stage. by rewrite Hweb, Hytb.
    + rewrite !calls_app, !elem_of_app. do 5 right.
      rewrite (document_stage_one_document E req iv query data document text
                 (y_all_contexts yv)) by done.
      pose proof (generate_answer_calls E req iv
                    (y_all_contexts yv ++
                     ["=== Document Context ===" +:+ NL +:+ text])
                    "small_talk" Hbound) as Hcall.
      rewrite bool_decide_eq_true_2 in Hcall
        by (by destruct (y_all_contexts yv)).
      by rewrite Henriched in Hcall.
Qed.

Lemma small_talk_keeps_document_search_witness :
  filter (λ c, is_document_call c)
    (calls (generate_response Sample.chatty Sample.everything)) =
    [search_documents_call "hello"] ∧
  chat_completions_create_call
    [("system", "=== Document Context ===" +:+ NL +:+ "text");
     ("user", "hello there")]
    4000 (7 # 10)%Q false
  ∈ calls (generate_response Sample.chatty Sample.everything).
Proof.
  pose (d := ({[ "user_intent" := "small_talk";
                 "enriched_query" := "hello there";
                 "search_query" := "hello" ]} : gmap string string)).
  assert (last_user_message (messages Sample.everything)
            ≠ "No question provided") as Hquestion by (by vm_compute).
  assert (analyze_intent Sample.chatty
            (last_user_message (messages Sample.everything))
            (locale Sample.everything) = Ret (Decoded d)) as Hintent
    by reflexivity.
  assert (d !! "user_intent" = Some "small_talk") as Huser by (by vm_compute).
  destruct (small_talk_keeps_document_search Sample.chatty Sample.everything d
              Hquestion Hintent Huser eq_refl) as (Hcalls & _ & Hblock).
  split; [exact Hcalls|].
  destruct (Hblock {| status := Some "success"; documents := [Sample.same] |}
              Sample.same "text" eq_refl eq_refl eq_refl eq_refl)
    as (earlier & Hearlier & Hcall).
  rewrite (Hearlier eq_refl) in Hcall. exact Hcall.
Defined.

(** The same on the path through the handler: the classification cannot be
    encoded, the document search receives the enriched query, and the block
    comes last after those of the web and the video search. *)
Example small_talk_document_search_after_failed_step_line :
  filter (λ c, is_document_call c)
    (calls (generate_response Scenario.garbled Scenario.streamed)) =
    [search_documents_call "hello \ud83d"] ∧
  collected Scenario.garbled Scenario.streamed =
    ["=== Web Search ===" +:+ NL +:+ "page on hello \ud83d";
     "=== Youtube Search ===" +:+ NL +:+ "video 0";
     "=== Document Context ===" +:+ NL +:+ "text"].
Proof. split; by vm_compute. Qed.

(** ** Video search *)

(** Whatever the planned queries are, every invocation of the video search
    carries the enriched query. *)
Lemma youtube_stage_queries E req iv :
  emits (only_calls (λ c, c = search_youtube_videos_call (include_mcp_server req)
                                (v_enriched_query iv)))
    (youtube_stage E req iv).
Proof. unfold youtube_stage, youtube_search. repeat emits_step; by simpl. Qed.

(** C5, the defect.  With two planned queries that both find videos, the
    video stage appends its block once per query: the contexts hold two
    blocks labelled Youtube Search, the second repeating the first. *)
Theorem video_stage_repeats_its_block :
  let iv := final (intent_stage Sample.video_library Sample.videos_only
                     (intent_vars_init Sample.videos_only)) in
  v_search_queries iv = ["a"; "b"] ∧
  y_all_contexts
    (final (youtube_stage Sample.video_library Sample.videos_only iv
              (youtube_vars_init []))) =
    ["=== Youtube Search ===" +:+ NL +:+ "video 0";
     "=== Youtube Search ===" +:+ NL +:+ "video 0" +:+ NL +:+ NL +:+ "video 1"] ∧
  last (calls (generate_response Sample.video_library Sample.videos_only)) =
    Some (chat_completions_create_call
            [("system",
              "=== Youtube Search ===" +:+ NL +:+ "video 0" +:+ NL +:+
              "=== Youtube Search ===" +:+ NL +:+ "video 0" +:+ NL +:+ NL +:+
              "video 1");
             ("user", "e")]
            4000 (7 # 10)%Q false).
Proof. split_and!; by vm_compute. Qed.

(** C6, the defect.  The planned queries are [a] and [b], yet the video
    search is invoked twice with the enriched query [e]. *)
Theorem video_search_ignores_planned_query :
  let iv := final (intent_stage Sample.video_library Sample.videos_only
                     (intent_vars_init Sample.videos_only)) in
  v_search_queries iv = ["a"; "b"] ∧
  v_enriched_query iv = "e" ∧
  filter (λ c, is_video_call c)
    (calls (generate_response Sample.video_library Sample.videos_only)) =
    [search_youtube_videos_call true "e"; search_youtube_videos_call true "e"].
Proof. split_and!; by vm_compute. Qed.

(** * Further properties of the generator *)

(** ** Composing runs *)

Lemma final_bind {St A B} (m : Gen St A) (k : A → Gen St B) (s : St) :
  final ((m ≫= k) s) =
    match outcome (m s) with
    | Ret a => final (k a (final (m s)))
    | Raise _ => final (m s)
    end.
Proof.
  unfold mbind, gen_bind. destruct (m s) as [[ev s'] [a|e]]; simpl; [|done].
  by destruct (k a s') as [[ev' s''] r].
Qed.

Lemma outcome_bind {St A B} (m : Gen St A) (k : A → Gen St B) (s : St) :
  outcome ((m ≫= k) s) =
    match outcome (m s) with
    | Ret a => outcome (k a (final (m s)))
    | Raise e => Raise e
    end.
Proof.
  unfold mbind, gen_bind. destruct (m s) as [[ev s'] [a|e]]; simpl; [|done].
  by destruct (k a s') as [[ev' s''] r].
Qed.

Lemma events_bind {St A B} (m : Gen St A) (k : A → Gen St B) (s : St) :
  events ((m ≫= k) s) =
    events (m s) ++
    match outcome (m s) with
    | Ret a => events (k a (final (m s)))
    | Raise _ => []
    end.
Proof.
  unfold mbind, gen_bind. destruct (m s) as [[ev s'] [a|e]]; simpl.
  - by destruct (k a s') as [[ev' s''] r].
  - by rewrite app_nil_r.
Qed.

Lemma final_try {St A} (m : Gen St A) (h : exn → Gen St A) (s : St) :
  final (try_except m h s) =
    match outcome (m s) with
    | Ret _ => final (m s)
    | Raise e => final (h e (final (m s)))
    end.
Proof.
  unfold try_except. destruct (m s) as [[ev s'] [a|e]]; simpl; [done|].
  by destruct (h e s') as [[ev' s''] r].
Qed.

Lemma events_try {St A} (m : Gen St A) (h : exn → Gen St A) (s : St) :
  events (try_except m h s) =
    events (m s) ++
    match outcome (m s) with
    | Ret _ => []
    | Raise e => events (h e (final (m s)))
    end.
Proof.
  unfold try_except. destruct (m s) as [[ev s'] [a|e]]; simpl.
  - by rewrite app_nil_r.
  - by destruct (h e s') as [[ev' s''] r].
Qed.

(** Breaks a computation into its statements, assignments included. *)
Ltac preserves_all :=
  repeat first
    [ preserves_step
    | apply preserves_read_local
    | apply preserves_throw
    | apply preserves_modify; intros ? ? ].

(** ** The question of a request (lines 165-169) *)

(** X1. The question is the content of the most recent message with the role
    [user], whatever follows it under other roles. *)
Theorem last_user_message_latest (earlier later : list ChatMessage)
    (m : ChatMessage) :
  role m = "user" →
  (∀ m', m' ∈ later → role m' ≠ "user") →
  last_user_message (earlier ++ m :: later) = content m.
Proof.
  intros Huser Hlater. unfold last_user_message.
  rewrite filter_reverse, filter_app, filter_cons_True by done.
  assert (filter (λ m, role m = "user") later = []) as ->.
  { clear -Hlater. induction later as [|m' later IH]; [done|].
    rewrite filter_cons_False by (apply Hlater; left).
    apply IH. intros m'' ?. apply Hlater. by right. }
  by rewrite reverse_app, reverse_singleton.
Qed.

Lemma last_user_message_latest_witness :
  last_user_message
    ([ {| role := "user"; content := "first" |};
       {| role := "assistant"; content := "reply" |} ] ++
     {| role := "user"; content := "second" |} ::
     [ {| role := "system"; content := "note" |} ]) = "second".
Proof.
  apply last_user_message_latest; [reflexivity|].
  intros m' [->|[]%elem_of_nil]%elem_of_cons. by vm_compute.
Defined.

(** ** What the classification leaves behind (lines 205-269) *)

(** Follows the intent stage to its end once the classifier has answered
    with an object: [I] holds after the assignments of lines 207-212 and no
    later statement of the stage breaks it. *)
Ltac after_classification Hintent I :=
  unfold intent_stage, analyze_and_plan; cbv zeta; rewrite Hintent;
  do 3 (erewrite run_try_bind by reflexivity; simpl);
  apply (preserves_try I); [| |done];
  [ preserves_all; by simpl
  | intros e; unfold intent_fallback; preserves_all; by simpl ].

Lemma intent_stage_bound E req d :
  analyze_intent E (last_user_message (messages req)) (locale req) =
    Ret (Decoded d) →
  v_user_intent (final (intent_stage E req (intent_vars_init req))) =
    Some (default "general_query" (d !! "user_intent")) ∧
  v_enriched_query (final (intent_stage E req (intent_vars_init req))) =
    default (last_user_message (messages req)) (d !! "enriched_query").
Proof.
  intros Hintent.
  after_classification Hintent
    (λ v, v_user_intent v =
            Some (default "general_query" (d !! "user_intent")) ∧
          v_enriched_query v =
            default (last_user_message (messages req))
              (d !! "enriched_query")).
Qed.

(** X2. Once the classifier has answered with an object, the intent, the
    enriched query and the resource group it names stay as classified to the
    end of the stage, whether planning runs, fails or is skipped. *)
Theorem classification_survives_planning E req d :
  analyze_intent E (last_user_message (messages req)) (locale req) =
    Ret (Decoded d) →
  classified d (last_user_message (messages req))
    (final (intent_stage E req (intent_vars_init req))).
Proof.
  intros Hintent.
  after_classification Hintent
    (classified d (last_user_message (messages req))).
Qed.

Lemma classification_survives_planning_witness :
  classified Scenario.product
    (last_user_message (messages Sample.everything))
    (final (intent_stage Scenario.shop Sample.everything
              (intent_vars_init Sample.everything))).
Proof.
  assert (analyze_intent Scenario.shop
            (last_user_message (messages Sample.everything))
            (locale Sample.everything) = Ret (Decoded Scenario.product))
    as Hintent by reflexivity.
  exact (classification_survives_planning Scenario.shop Sample.everything
           Scenario.product Hintent).
Defined.

(** X3. The search queries the retrieval stages receive. When a line that
    shows the classification or the plan raises (verbose streaming, and the
    text cannot be encoded), the handler of the stage makes them the enriched
    query alone. Otherwise, with planning enabled and an intent other than
    [small_talk] they are the planner's [search_queries]; when the planner
    raises, returns nothing, returns what cannot be decoded or omits the key,
    they are the enriched query alone. With planning disabled, by the caller
    or by small talk, they are the classifier's search query alone (the raw
    question when it names none). *)
Theorem search_queries_after_planning E req d :
  analyze_intent E (last_user_message (messages req)) (locale req) =
    Ret (Decoded d) →
  let question := last_user_message (messages req) in
  let user_intent := default "general_query" (d !! "user_intent") in
  let enriched_query := default question (d !! "enriched_query") in
  v_search_queries (final (intent_stage E req (intent_vars_init req))) =
    if step_line_raises E req (intent_data_str E d) then [enriched_query]
    else if planning req && negb (bool_decide (user_intent = "small_talk"))
    then
      match generate_search_plan E user_intent enriched_query (locale req) with
      | Ret (Decoded p) =>
          if step_line_raises E req (plan_data_str E p) then [enriched_query]
          else default [enriched_query] (p !! "search_queries")
      | _ => [enriched_query]
      end
    else [default question (d !! "search_query")].
Proof.
  intros Hintent. cbv zeta.
  unfold step_line_raises, intent_data_str, plan_data_str.
  unfold intent_stage, analyze_and_plan, intent_fallback. run_stage_by_cases.
  rewrite Hintent.
  destruct (verbose req), (stream req); simpl;
    try (destruct (b64encode E (if bool_decide (d ≠ ∅) then _ else _));
         simpl; [|done]);
    destruct (bool_decide (default "general_query" (d !! "user_intent") =
                           "small_talk")); simpl;
    destruct (planning req); simpl; try done;
    destruct (generate_search_plan E _ _ _) as [[|e|p]|e]; simpl; try done;
    destruct (b64encode E _); simpl; done.
Qed.

Lemma search_queries_after_planning_witness :
  v_search_queries
    (final (intent_stage Scenario.shop Sample.everything
              (intent_vars_init Sample.everything))) = ["a"; "b"].
Proof.
  assert (analyze_intent Scenario.shop
            (last_user_message (messages Sample.everything))
            (locale Sample.everything) = Ret (Decoded Scenario.product))
    as Hintent by reflexivity.
  exact (search_queries_after_planning Scenario.shop Sample.everything
           Scenario.product Hintent).
Defined.

(** ** Flags (lines 224-231) *)

(** X4. The classification can switch planning, web search and video search
    off; it never switches on what the caller has switched off. *)
Theorem classification_never_enables E req :
  let iv := final (intent_stage E req (intent_vars_init req)) in
  (planning req = false → v_planning iv = false) ∧
  (include_web_search req = false → v_include_web_search iv = false) ∧
  (include_ytb_search req = false → v_include_ytb_search iv = false).
Proof.
  intros iv. unfold iv, intent_stage, analyze_and_plan, intent_fallback.
  split_and!; intros Hoff.
  - apply (preserves_try (λ v, v_planning v = false)); [..|done];
      intros; preserves_all; by simpl.
  - apply (preserves_try (λ v, v_include_web_search v = false)); [..|done];
      intros; preserves_all; by simpl.
  - apply (preserves_try (λ v, v_include_ytb_search v = false)); [..|done];
      intros; preserves_all; by simpl.
Qed.

Lemma classification_never_enables_witness :
  v_planning (Scenario.planned Scenario.shop Scenario.bare) = false ∧
  v_include_web_search (Scenario.planned Scenario.shop Scenario.bare) = false ∧
  v_include_ytb_search (Scenario.planned Scenario.shop Scenario.bare) = false.
Proof.
  destruct (classification_never_enables Scenario.shop Scenario.bare)
    as (Hplanning & Hweb & Hytb).
  exact (conj (Hplanning eq_refl) (conj (Hweb eq_refl) (Hytb eq_refl))).
Defined.

(** ** The completion call (lines 513-560) *)

Lemma generate_answer_one_call E req iv contexts u :
  v_user_intent iv = Some u →
  calls (events (try_except (generate_answer E req iv contexts)
                   (λ e, yield ("Error: " +:+ e)) tt)) =
    [chat_completions_create_call
       (answer_messages E req u
          (join NL (if bool_decide (contexts ≠ []) then contexts
                    else ["No relevant context found."]))
          (v_enriched_query iv))
       (default (MAX_TOKENS E) (max_tokens req))
       (default (DEFAULT_TEMPERATURE E) (temperature req))
       (stream req)].
Proof.
  intros Hbound. unfold generate_answer, try_except.
  unfold mbind, gen_bind, when, read_local, yield, invoke, mret, gen_ret.
  rewrite Hbound. destruct (stream req); simpl.
  - destruct (chat_completions_create_stream _ _ _ _) as [[chunks failure]|e];
      simpl; [|done].
    rewrite yield_chunks_run. simpl.
    destruct failure; simpl; destruct (elapsed_time req); simpl;
      rewrite ?calls_app; f_equal;
      by induction (delivered chunks) as [|? ? IH].
  - destruct (chat_completions_create _ _ _ _) as [text|e]; simpl; [|done].
    by destruct (elapsed_time req).
Qed.

Lemma answer_messages_template E req u contexts_text enriched_query :
  answer_messages E req u contexts_text enriched_query =
    [("system",
      (if bool_decide (u = "product_query")
       then PRODUCT_ANSWER_PROMPT E else GENERAL_ANSWER_PROMPT E)
        (today E) contexts_text enriched_query (locale req));
     ("user", enriched_query)].
Proof.
  unfold answer_messages. repeat case_bool_decide; by simplify_eq.
Qed.

(** X5. Once the classifier has answered with an object, the completion client
    is called exactly once, whatever the planner and the retrieval stages do:
    with the product template when the intent is [product_query] and the
    general template for every other intent, filled with the contexts and the
    enriched query, and with the enriched query as the user message. *)
Theorem retrieval_never_blocks_generation E req d :
  last_user_message (messages req) ≠ "No question provided" →
  analyze_intent E (last_user_message (messages req)) (locale req) =
    Ret (Decoded d) →
  let user_intent := default "general_query" (d !! "user_intent") in
  let enriched_query :=
    default (last_user_message (messages req)) (d !! "enriched_query") in
  let template :=
    if bool_decide (user_intent = "product_query")
    then PRODUCT_ANSWER_PROMPT E else GENERAL_ANSWER_PROMPT E in
  ∃ contexts_text,
    filter (λ c, is_completion_call c) (calls (generate_response E req)) =
      [chat_completions_create_call
         [("system",
           template (today E) contexts_text enriched_query (locale req));
          ("user", enriched_query)]
         (default (MAX_TOKENS E) (max_tokens req))
         (default (DEFAULT_TEMPERATURE E) (temperature req))
         (stream req)].
Proof.
  intros Hquestion Hintent user_intent enriched_query template.
  destruct (intent_stage_bound E req d Hintent) as (Hbound & Henriched).
  destruct (generate_response_prefix E req Hquestion)
    as (ev & contexts & Hev & ->).
  eexists. rewrite calls_app, filter_app.
  rewrite (generate_answer_one_call E req _ contexts _ Hbound).
  rewrite answer_messages_template, Henriched.
  rewrite (filter_none _ (calls ev)); [done|].
  apply Forall_calls. eapply Forall_impl; [exact Hev|].
  intros [fragment|c]; simpl; [done|]. intros Hc Htrue. by rewrite Hc in Htrue.
Qed.

Lemma retrieval_never_blocks_generation_witness :
  ∃ contexts_text,
    filter (λ c, is_completion_call c)
      (calls (generate_response Scenario.shop Sample.everything)) =
      [chat_completions_create_call
         [("system",
           PRODUCT_ANSWER_PROMPT Scenario.shop (today Scenario.shop)
             contexts_text "which phone" (locale Sample.everything));
          ("user", "which phone")]
         4000 (7 # 10)%Q false].
Proof.
  assert (last_user_message (messages Sample.everything)
            ≠ "No question provided") as Hquestion by (by vm_compute).
  assert (analyze_intent Scenario.shop
            (last_user_message (messages Sample.everything))
            (locale Sample.everything) = Ret (Decoded Scenario.product))
    as Hintent by reflexivity.
  exact (retrieval_never_blocks_generation Scenario.shop Sample.everything
           Scenario.product Hquestion Hintent).
Defined.

(** ** The fragments of a successful request (lines 184-577) *)


Section quiet_stages.
Context (E : Collaborators) (req : Request) (P : event → Prop).
Hypothesis not_streaming : stream req = false.
Hypothesis invoke_ok : ∀ c, P (Invoke c).




End quiet_stages.







(** ** Nothing retrieved (lines 513-514) *)

(** X8. When the caller has switched web, video and document retrieval off, no
    retrieval function is invoked and the prompt carries the sentence [No
    relevant context found.] in place of the contexts. *)
Theorem no_source_means_sentinel E req d :
  last_user_message (messages req) ≠ "No question provided" →
  analyze_intent E (last_user_message (messages req)) (locale req) =
    Ret (Decoded d) →
  include_web_search req = false →
  include_ytb_search req = false →
  include_ai_search req = false →
  let user_intent := default "general_query" (d !! "user_intent") in
  let enriched_query :=
    default (last_user_message (messages req)) (d !! "enriched_query") in
  Forall (λ c, is_web_call c = false ∧ is_video_call c = false ∧
               is_document_call c = false)
    (calls (generate_response E req)) ∧
  filter (λ c, is_completion_call c) (calls (generate_response E req)) =
    [chat_completions_create_call
       (answer_messages E req user_intent "No relevant context found."
          enriched_query)
       (default (MAX_TOKENS E) (max_tokens req))
       (default (DEFAULT_TEMPERATURE E) (temperature req))
       (stream req)].
Proof.
  intros Hquestion Hintent Hweb Hytb Hai user_intent enriched_query.
  destruct (intent_stage_bound E req d Hintent) as (Hbound & Henriched).
  assert (v_include_web_search
            (final (intent_stage E req (intent_vars_init req))) = false)
    as Hweb'.
  { unfold intent_stage, analyze_and_plan, intent_fallback.
    apply (preserves_try (λ v, v_include_web_search v = false)); [..|done];
      intros; preserves_all; by simpl. }
  assert (v_include_ytb_search
            (final (intent_stage E req (intent_vars_init req))) = false)
    as Hytb'.
  { unfold intent_stage, analyze_and_plan, intent_fallback.
    apply (preserves_try (λ v, v_include_ytb_search v = false)); [..|done];
      intros; preserves_all; by simpl. }
  rewrite generate_response_run by done.
  set (iv := final (intent_stage E req (intent_vars_init req))) in *.
  assert (web_stage E req iv web_vars_init = ([], web_vars_init, Ret tt)) as ->.
  { unfold web_stage. by rewrite Hweb'. }
  simpl.
  assert (youtube_stage E req iv (youtube_vars_init []) =
          ([], youtube_vars_init [], Ret tt)) as ->.
  { unfold youtube_stage. by rewrite Hytb'. }
  simpl.
  assert (document_stage E req iv (doc_vars_init []) =
          ([], doc_vars_init [], Ret tt)) as ->.
  { unfold document_stage. by rewrite Hai. }
  simpl.
  assert (Forall (only_calls (λ c, is_web_call c = false ∧
                                   is_video_call c = false ∧
                                   is_document_call c = false ∧
                                   is_completion_call c = false))
            ((if stream req
              then [Yield (status_line (analyzing (LOCALE_MSG E req)))]
              else []) ++
             events (intent_stage E req (intent_vars_init req)))) as Hpre.
  { apply Forall_app_2; [destruct (stream req); by repeat constructor|].
    by apply intent_stage_emits. }
  rewrite app_assoc, calls_app. split.
  - apply Forall_app_2.
    + apply Forall_calls. eapply Forall_impl; [exact Hpre|].
      intros [?|?]; simpl; [done|tauto].
    + rewrite (generate_answer_one_call E req iv [] _ Hbound).
      by repeat constructor.
  - rewrite filter_app, (filter_none _ (calls _)).
    + rewrite (generate_answer_one_call E req iv [] _ Hbound). simpl.
      by rewrite Henriched.
    + apply Forall_calls. eapply Forall_impl; [exact Hpre|].
      intros [?|c]; simpl; [done|]. intros (_ & _ & _ & Hc) Htrue.
      by rewrite Hc in Htrue.
Qed.

Lemma no_source_means_sentinel_witness :
  Forall (λ c, is_web_call c = false ∧ is_video_call c = false ∧
               is_document_call c = false)
    (calls (generate_response Scenario.shop Scenario.unaided)) ∧
  filter (λ c, is_completion_call c)
    (calls (generate_response Scenario.shop Scenario.unaided)) =
    [chat_completions_create_call
       (answer_messages Scenario.shop Scenario.unaided "product_query"
          "No relevant context found." "which phone")
       4000 (7 # 10)%Q false].
Proof.
  assert (last_user_message (messages Scenario.unaided)
            ≠ "No question provided") as Hquestion by (by vm_compute).
  assert (analyze_intent Scenario.shop
            (last_user_message (messages Scenario.unaided))
            (locale Scenario.unaided) = Ret (Decoded Scenario.product))
    as Hintent by reflexivity.
  exact (no_source_means_sentinel Scenario.shop Scenario.unaided
           Scenario.product Hquestion Hintent eq_refl eq_refl eq_refl).
Defined.

(** ** A classifier without an answer (lines 205-224, 264-269, 523) *)

Lemma intent_stage_undecoded E req :
  (analyze_intent E (last_user_message (messages req)) (locale req) = Ret NoValue ∨
   ∃ e, analyze_intent E (last_user_message (messages req)) (locale req) =
          Ret (Malformed e)) →
  final (intent_stage E req (intent_vars_init req)) =
    assign_search_queries [last_user_message (messages req)]
      (intent_vars_init req) ∧
  calls (events (intent_stage E req (intent_vars_init req))) =
    [analyze_intent_call (last_user_message (messages req)) (locale req)].
Proof.
  intros Hintent.
  unfold intent_stage, try_except, analyze_and_plan, intent_fallback.
  unfold mbind, gen_bind, invoke, decode, modify, get, when, read_local, yield,
    mret, gen_ret, mthrow, gen_throw.
  destruct Hintent as [-> | [e ->]];
    by destruct (verbose req), (stream req).
Qed.

(** X9. When the classifier returns an empty result, or one that cannot be
    decoded, the request fares as when the classifier raises: the raw question
    becomes the only search query, the planner is not consulted, and the
    request ends in the error fragment for the unbound [user_intent] without
    the completion client being called. *)
Theorem undecoded_classification_ends_in_error E req :
  last_user_message (messages req) ≠ "No question provided" →
  (analyze_intent E (last_user_message (messages req)) (locale req) = Ret NoValue ∨
   ∃ e, analyze_intent E (last_user_message (messages req)) (locale req) =
          Ret (Malformed e)) →
  v_search_queries (final (intent_stage E req (intent_vars_init req))) =
    [last_user_message (messages req)] ∧
  Forall (λ c, is_planning_call c = false ∧ is_completion_call c = false)
    (calls (generate_response E req)) ∧
  last (yields (generate_response E req)) =
    Some ("Error: " +:+ UnboundLocalError "user_intent").
Proof.
  intros Hquestion Hintent.
  destruct (intent_stage_undecoded E req Hintent) as [Hfinal Hcalls].
  split; [by rewrite Hfinal|].
  rewrite generate_response_run by done.
  rewrite generate_answer_unbound by (by rewrite Hfinal).
  pose proof status_line_is_status as Hstatus.
  pose proof data_line_is_status as Hdata.
  split.
  - rewrite !calls_app, Hcalls. repeat apply Forall_app_2.
    + destruct (stream req); by repeat constructor.
    + by repeat constructor.
    + apply Forall_calls.
      by apply (web_stage_emits E req
                  (only_calls (λ c, is_planning_call c = false ∧
                                    is_completion_call c = false))).
    + apply Forall_calls.
      by apply (youtube_stage_emits E req
                  (only_calls (λ c, is_planning_call c = false ∧
                                    is_completion_call c = false))).
    + apply Forall_calls.
      by apply (document_stage_emits E req
                  (only_calls (λ c, is_planning_call c = false ∧
                                    is_completion_call c = false))).
    + destruct (stream req); by repeat constructor.
  - rewrite !app_assoc, yields_app.
    match goal with |- last (?l ++ _) = _ => generalize l end. intros l.
    destruct (stream req); simpl; by rewrite last_app_cons.
Qed.

Lemma undecoded_classification_ends_in_error_witness :
  v_search_queries (Scenario.planned Scenario.mute Sample.everything) =
    ["hi"] ∧
  Forall (λ c, is_planning_call c = false ∧ is_completion_call c = false)
    (calls (generate_response Scenario.mute Sample.everything)) ∧
  last (yields (generate_response Scenario.mute Sample.everything)) =
    Some ("Error: " +:+ UnboundLocalError "user_intent").
Proof.
  assert (last_user_message (messages Sample.everything)
            ≠ "No question provided") as Hquestion by (by vm_compute).
  exact (undecoded_classification_ends_in_error Scenario.mute
           Sample.everything Hquestion (or_introl eq_refl)).
Defined.

(** ** The size of the document aggregate (lines 410-478) *)

(** X10. The running total is the sum of the lengths of the texts in the
    aggregate and never passes 400,000; every text in the aggregate is
    non-empty and has at most 10,015 characters. *)
Theorem aggregate_stays_within_budget E req search_queries all_contexts :
  let v := final (search_all_documents E req search_queries
                    (doc_vars_init all_contexts)) in
  d_current_total_length v = total_length (d_doc_contexts v) ∧
  total_length (d_doc_contexts v) ≤ 400000 ∧
  Forall (λ text, 0 < len text ≤ 10015) (d_doc_contexts v).
Proof.
  intros v.
  destruct (search_all_documents_admissions E req search_queries all_contexts)
    as (admitted & Htexts & Htotal & _ & _ & Horigin). fold v in Htexts, Htotal.
  pose proof (running_total_within_ceiling E req search_queries all_contexts)
    as Hceiling. fold v in Hceiling.
  split_and!.
  - by rewrite Htexts, Htotal.
  - by rewrite Htexts, <-Htotal.
  - rewrite Htexts. apply Forall_fmap. eapply Forall_impl; [exact Horigin|].
    intros a (_ & _ & Htext). simpl. split.
    + pose proof (content_to_add_nonempty _ _ Htext) as Hnonempty.
      pose proof (len_nonneg (a_text a)).
      destruct (decide (len (a_text a) = 0)) as [Hzero|]; [|lia].
      by apply len_empty in Hzero.
    + by apply (content_to_add_len (a_document a)).
Qed.

(** ** From one invariant to the next *)

Section leads.
Context {St : Type} (P Q : St → Prop).

Lemma leads_pre {A B} (m : Gen St A) (k : A → Gen St B) :
  preserves P m → (∀ s, P s → Q s) → (∀ a, leads P Q (k a)) →
  leads P Q (m ≫= k).
Proof.
  intros Hm Hweaken Hk s Hs. rewrite final_bind. specialize (Hm s Hs).
  destruct (outcome (m s)); [by apply Hk | by apply Hweaken].
Qed.

Lemma leads_post {A B} (m : Gen St A) (k : A → Gen St B) :
  leads P Q m → (∀ a, preserves Q (k a)) → leads P Q (m ≫= k).
Proof.
  intros Hm Hk s Hs. rewrite final_bind. specialize (Hm s Hs).
  destruct (outcome (m s)); [by apply Hk | done].
Qed.

Lemma leads_try {A} (m : Gen St A) (h : exn → Gen St A) :
  leads P Q m → (∀ e, preserves Q (h e)) → leads P Q (try_except m h).
Proof.
  intros Hm Hh s Hs. rewrite final_try. specialize (Hm s Hs).
  destruct (outcome (m s)); [done | by apply Hh].
Qed.

Lemma leads_when (b : bool) (m : Gen St unit) :
  leads P Q m → (∀ s, P s → Q s) → leads P Q (when b m).
Proof. intros Hm Hweaken. destruct b; [done|]. intros s. apply Hweaken. Qed.
End leads.

(** Breaks a computation into its statements, keeping the conditions. *)
Ltac preserves_guarded :=
  repeat first
    [ apply preserves_when_guard; intros ?
    | preserves_step
    | apply preserves_read_local
    | apply preserves_throw
    | apply preserves_modify; intros ? ? ].

(** ** At most one block from web search and from document search *)

Lemma append_nonempty (s1 s2 : string) : s1 ≠ "" → s1 +:+ s2 ≠ "".
Proof. by destruct s1. Qed.

Lemma join_nonempty (sep : string) (l : list string) :
  l ≠ [] → Forall (λ s, s ≠ "") l → join sep l ≠ "".
Proof.
  intros Hl Hall. destruct Hall as [|s l Hs _]; [done|].
  unfold join. simpl. destruct l; [done|]. by apply append_nonempty.
Qed.

(** X11. The web stage leaves the contexts as they are or appends one block to
    them, labelled Web Search or Grounding Search, whose body is not empty. *)
Theorem web_stage_adds_at_most_one_block E req iv (v : web_vars) :
  w_web_search_contexts v = [] →
  one_block_more ["=== Web Search ==="; "=== Grounding Search ==="]
    (w_all_contexts v) (w_all_contexts (final (web_stage E req iv v))).
Proof.
  intros Hfresh.
  set (before := w_all_contexts v).
  set (P := λ s : web_vars,
         w_all_contexts s = before ∧
         Forall (λ text, text ≠ "") (w_web_search_contexts s)).
  set (Q := λ s : web_vars,
         one_block_more ["=== Web Search ==="; "=== Grounding Search ==="]
           before (w_all_contexts s)).
  assert (∀ s, P s → Q s) as Hweaken by (intros s [Hs _]; by left).
  cut (leads P Q (web_stage E req iv)).
  { intros Hleads. apply Hleads. split; [done|]. rewrite Hfresh. constructor. }
  unfold web_stage, web_search.
  apply leads_when; [|done].
  apply leads_try; [|intros e; preserves_all].
  apply leads_post; [|intros []; preserves_all].
  destruct (search_engine req).
  - apply leads_pre; [preserves_all|done|]. intros [].
    apply leads_pre; [preserves_all|done|]. intros grounding_result.
    intros s [Hs _]. destruct (truthy grounding_result) eqn:Hresult; [|by left].
    apply truthy_Some in Hresult as (text & -> & Htext). right.
    exists "=== Grounding Search ===", text. simpl.
    split_and!; [set_solver|done|by rewrite Hs].
  - apply leads_pre; [| done |].
    + preserves_guarded; try done.
      match goal with H : P _ |- _ => destruct H as [? ?] end.
      match goal with H : truthy _ = true |- _ =>
        apply truthy_Some in H as (text & -> & Htext) end.
      split; [done|]. simpl. apply Forall_app_2; [done|by constructor].
    + intros []. intros s [Hs Hall].
      unfold mbind, gen_bind, get, when, modify. simpl.
      case_bool_decide as Hresults; simpl; [|by left].
      right.
      exists "=== Web Search ===", (join (NL +:+ NL) (w_web_search_contexts s)).
      split_and!; [set_solver|by apply join_nonempty|by rewrite <-Hs].
  - apply leads_pre; [| done |].
    + preserves_guarded; try done.
      match goal with H : P _ |- _ => destruct H as [? ?] end.
      match goal with H : truthy _ = true |- _ =>
        apply truthy_Some in H as (text & -> & Htext) end.
      split; [done|]. simpl. apply Forall_app_2; [done|by constructor].
    + intros []. intros s [Hs Hall].
      unfold mbind, gen_bind, get, when, modify. simpl.
      case_bool_decide as Hresults; simpl; [|by left].
      right.
      exists "=== Web Search ===", (join (NL +:+ NL) (w_web_search_contexts s)).
      split_and!; [set_solver|by apply join_nonempty|by rewrite <-Hs].
  - intros s Hs. by apply Hweaken.
Qed.

Lemma web_stage_adds_at_most_one_block_witness :
  one_block_more ["=== Web Search ==="; "=== Grounding Search ==="] []
    (w_all_contexts
       (final (web_stage Scenario.crawler Scenario.crawling
                 (Scenario.planned Scenario.crawler Scenario.crawling)
                 web_vars_init))).
Proof.
  exact (web_stage_adds_at_most_one_block Scenario.crawler Scenario.crawling
           (Scenario.planned Scenario.crawler Scenario.crawling)
           web_vars_init eq_refl).
Defined.

Lemma preserves_final {St A} (I : St → Prop) (m : Gen St A) (s : St) :
  preserves I m → I s → I (final (m s)).
Proof. intros Hm. apply Hm. Qed.

(** X12. The document stage leaves the contexts as they are or appends one
    block to them, labelled Document Context, whose body is not empty. *)
Theorem document_stage_adds_at_most_one_block E req iv (v : doc_vars) :
  d_doc_contexts v = [] →
  one_block_more ["=== Document Context ==="]
    (d_all_contexts v) (d_all_contexts (final (document_stage E req iv v))).
Proof.
  intros Hfresh.
  set (before := d_all_contexts v).
  set (P := λ s : doc_vars,
         d_all_contexts s = before ∧
         Forall (λ text, text ≠ "") (d_doc_contexts s)).
  set (Q := λ s : doc_vars,
         one_block_more ["=== Document Context ==="] before (d_all_contexts s)).
  assert (∀ s, P s → Q s) as Hweaken by (intros s [Hs _]; by left).
  cut (leads P Q (document_stage E req iv)).
  { intros Hleads. apply Hleads. split; [done|]. rewrite Hfresh. constructor. }
  unfold document_stage, document_search.
  apply leads_when; [|done].
  apply leads_try; [|intros e; preserves_all].
  apply leads_pre; [|done|].
  - apply search_all_documents_preserves. intros i doc_idx d s [Hs Hall].
    rewrite admit_document_run. simpl.
    case_bool_decide; [done|].
    destruct (content_to_add d) as [text|]; simpl; [|done].
    destruct (bool_decide (text ≠ "")) eqn:Htext; simpl; [|done].
    apply bool_decide_eq_true in Htext.
    case_bool_decide; simpl; [|done].
    split; [done|]. apply Forall_app_2; [done|by constructor].
  - intros []. intros s [Hs Hall]. rewrite final_bind. simpl.
    rewrite final_bind. unfold when at 1.
    case_bool_decide as Htexts; simpl.
    + apply preserves_final; [preserves_all|].
      right. exists "=== Document Context ===",
                    (join (NL +:+ NL) (d_doc_contexts s)).
      split_and!; [set_solver|by apply join_nonempty|by rewrite <-Hs].
    + apply preserves_final; [preserves_all|by left].
Qed.

Lemma document_stage_adds_at_most_one_block_witness :
  one_block_more ["=== Document Context ==="] ["earlier"]
    (d_all_contexts
       (final (document_stage Sample.repeating Sample.documents_only
                 (Scenario.planned Sample.repeating Sample.documents_only)
                 (doc_vars_init ["earlier"])))).
Proof.
  exact (document_stage_adds_at_most_one_block Sample.repeating
           Sample.documents_only
           (Scenario.planned Sample.repeating Sample.documents_only)
           (doc_vars_init ["earlier"]) eq_refl).
Defined.

(** ** Two documents a query (line 440) *)

Lemma leads_for_cost {St A} (J : nat → St → Prop) (c : nat)
    (body : nat → A → Gen St ctl) :
  (∀ n n' s, (n ≤ n')%nat → J n s → J n' s) →
  (∀ i x n, leads (J n) (J (n + c)%nat) (body i x)) →
  ∀ xs start n,
    leads (J n) (J (n + c * length xs)%nat) (for_enumerate start xs body).
Proof.
  intros Hmono Hbody xs.
  induction xs as [|x xs IH]; intros start n s Hs; simpl.
  { eapply Hmono; [|done]. lia. }
  rewrite final_bind. specialize (Hbody start x n s Hs).
  destruct (outcome (body start x s)) as [[|]|e]; simpl.
  - eapply Hmono; [|by apply (IH (S start) (n + c)%nat)]. lia.
  - eapply Hmono; [|done]. lia.
  - eapply Hmono; [|done]. lia.
Qed.

(** X13. However many documents a search returns, the aggregate grows by at
    most two texts a query. *)
Theorem at_most_two_documents_per_query E req search_queries all_contexts :
  (length (d_doc_contexts
             (final (search_all_documents E req search_queries
                       (doc_vars_init all_contexts))))
   ≤ 2 * length search_queries)%nat.
Proof.
  set (J := λ (n : nat) (s : doc_vars), (length (d_doc_contexts s) ≤ n)%nat).
  assert (∀ n n' s, (n ≤ n')%nat → J n s → J n' s) as Hmono.
  { unfold J. intros. lia. }
  cut (leads (J 0%nat) (J (0 + 2 * length search_queries)%nat)
         (search_all_documents E req search_queries)).
  { intros Hleads. apply Hleads. unfold J. simpl. lia. }
  unfold search_all_documents. apply leads_for_cost; [done|].
  intros i query n.
  apply leads_pre; [preserves_all | intros; eapply Hmono; [|done]; lia |].
  intros []. apply leads_pre; [preserves_all | intros; eapply Hmono; [|done]; lia |].
  intros ai_search_result.
  apply leads_pre; [preserves_all | intros; eapply Hmono; [|done]; lia |].
  intros found. apply leads_post; [|intros []; preserves_all].
  destruct found as [data|]; [|intros s Hs; eapply Hmono; [|done]; lia].
  apply leads_when; [|intros; eapply Hmono; [|done]; lia].
  unfold admit_documents.
  intros s Hs.
  pose proof (leads_for_cost J 1 (admit_document i) Hmono) as Hinner.
  eapply Hmono; [|apply (Hinner); [|exact Hs]].
  - rewrite length_take. lia.
  - clear. intros doc_idx d n s Hs. rewrite admit_document_run. simpl.
    unfold J in *. repeat case_match; simpl; rewrite ?length_app; simpl; lia.
Qed.

(** ** A failing document search (lines 406-508) *)

(** X14. When the loop over the queries of the document stage raises -- a
    search raised, or its result could not be decoded -- the stage ends in
    its exception handler with the contexts as they were: the documents
    admitted for earlier queries are dropped with it. *)
Theorem failed_document_stage_adds_nothing E req iv (v : doc_vars) e :
  include_ai_search req = true →
  outcome (search_all_documents E req (v_search_queries iv) v) = Raise e →
  d_all_contexts (final (document_stage E req iv v)) = d_all_contexts v.
Proof.
  intros Hai Hraise. unfold document_stage. rewrite Hai. simpl.
  assert (outcome (document_search E req (v_search_queries iv) v) = Raise e ∧
          final (document_search E req (v_search_queries iv) v) =
            final (search_all_documents E req (v_search_queries iv) v))
    as [Houtcome Hfinal].
  { unfold document_search. by rewrite outcome_bind, final_bind, Hraise. }
  rewrite final_try, Houtcome.
  assert (final (when (stream req)
                   (yield (status_line ("Error processing documents: " +:+ e)))
                   (final (document_search E req (v_search_queries iv) v))) =
          final (document_search E req (v_search_queries iv) v)) as ->
    by (by destruct (stream req)).
  rewrite Hfinal.
  by apply (search_all_documents_preserves
              (λ s, d_all_contexts s = d_all_contexts v));
    [intros i doc_idx d s Hs; rewrite admit_document_run; simpl;
     repeat case_match|].
Qed.

Lemma failed_document_stage_adds_nothing_witness :
  d_all_contexts
    (final (document_stage Scenario.flaky Sample.documents_only
              (Scenario.planned Scenario.flaky Sample.documents_only)
              (doc_vars_init ["earlier"]))) = ["earlier"].
Proof.
  assert (outcome (search_all_documents Scenario.flaky Sample.documents_only
                     (v_search_queries
                        (Scenario.planned Scenario.flaky
                           Sample.documents_only))
                     (doc_vars_init ["earlier"])) =
          Raise "index unavailable") as Hraise by (by vm_compute).
  exact (failed_document_stage_adds_nothing Scenario.flaky
           Sample.documents_only
           (Scenario.planned Scenario.flaky Sample.documents_only)
           (doc_vars_init ["earlier"]) "index unavailable" eq_refl Hraise).
Defined.

(** ** Crawling and grounding (lines 279-347) *)

Lemma run_bind_ret {St A B} (m : Gen St A) (k : A → Gen St B) s ev s' a :
  m s = (ev, s', Ret a) →
  (m ≫= k) s = (ev ++ events (k a s'), final (k a s'), outcome (k a s')).
Proof.
  intros Hm. unfold mbind, gen_bind. rewrite Hm.
  by destruct (k a s') as [[ev' s''] r].
Qed.

Lemma crawl_loop_run E req (all_queries search_queries : list string)
    (start : nat) (v : web_vars) :
  (∀ i q, ∃ r, search_single_query E i q (locale req) = Ret r) →
  ∃ ev,
    for_enumerate start search_queries (λ i query,
      when (stream req) (yield (status_line
        (progress (searching (LOCALE_MSG E req)) i all_queries query)));;
      search_result ←
        invoke (search_single_query_call query (locale req))
               (search_single_query E i query (locale req));
      when (truthy search_result)
        (modify (append_web_result (default "" search_result)));;
      mret Continue) v =
      (ev,
       {| w_all_contexts := w_all_contexts v;
          w_web_search_contexts :=
            w_web_search_contexts v ++
            crawl_results E (locale req) start search_queries;
          w_combined_web_context := w_combined_web_context v |},
       Ret tt) ∧
    calls ev = (λ q, search_single_query_call q (locale req)) <$> search_queries.
Proof.
  intros Hreturns.
  match goal with |- ∃ ev, for_enumerate _ _ ?b _ = _ ∧ _ => set (body := b) end.
  revert start v.
  induction search_queries as [|query rest IH]; intros start v; simpl.
  { exists []. rewrite app_nil_r. by destruct v. }
  destruct (Hreturns start query) as [r Hr].
  assert (∃ ev, body start query v =
                  (ev,
                   if truthy r then append_web_result (default "" r) v else v,
                   Ret Continue) ∧
                calls ev = [search_single_query_call query (locale req)])
    as (ev1 & Hbody & Hcalls1).
  { unfold body, mbind, gen_bind, when, yield, invoke, modify, mret, gen_ret.
    rewrite Hr. destruct (stream req), (truthy r); simpl; by eexists. }
  erewrite run_bind_ret by exact Hbody.
  destruct (IH (S start)
              (if truthy r then append_web_result (default "" r) v else v))
    as (ev2 & -> & Hcalls2).
  simpl. eexists. split; [|by rewrite calls_app, Hcalls1, Hcalls2].
  f_equal. f_equal. rewrite Hr.
  destruct (truthy r); simpl; by rewrite <-?app_assoc.
Qed.

(** X15. In either crawling mode, when no search raises, the web stage invokes
    the search once for every planned query, in order, and appends the block
    made of the results found, in query order and separated by blank lines;
    when no search finds anything it appends nothing. *)
Theorem crawling_collects_in_query_order E req iv (v : web_vars) :
  search_engine req = BING_SEARCH_CRAWLING ∨
  search_engine req = BING_GROUNDING_CRAWLING →
  v_include_web_search iv = true →
  v_search_queries iv ≠ [] →
  w_web_search_contexts v = [] →
  (∀ i q, ∃ r, search_single_query E i q (locale req) = Ret r) →
  let results := crawl_results E (locale req) 0 (v_search_queries iv) in
  calls (events (web_stage E req iv v)) =
    (λ q, search_single_query_call q (locale req)) <$> v_search_queries iv ∧
  w_all_contexts (final (web_stage E req iv v)) =
    w_all_contexts v ++
    (if bool_decide (results ≠ [])
     then ["=== Web Search ===" +:+ NL +:+ join (NL +:+ NL) results]
     else []).
Proof.
  intros Hengine Hweb Hqueries Hfresh Hreturns results.
  unfold web_stage, web_search. rewrite Hweb, bool_decide_eq_true_2 by done.
  simpl.
  destruct (crawl_loop_run E req (v_search_queries iv) (v_search_queries iv)
              0 v Hreturns) as (ev & Hloop & Hcalls).
  fold results in Hloop. rewrite Hfresh in Hloop. simpl in Hloop.
  set (collected := {| w_all_contexts := w_all_contexts v;
                       w_web_search_contexts := results;
                       w_combined_web_context := w_combined_web_context v |})
    in Hloop.
  set (combined := if bool_decide (results ≠ [])
                  then combine_web collected else collected).
  assert (∀ k : unit → Gen web_vars unit,
            ((for_enumerate 0 (v_search_queries iv) (λ i query,
                when (stream req) (yield (status_line
                  (progress (searching (LOCALE_MSG E req)) i
                     (v_search_queries iv) query)));;
                search_result ←
                  invoke (search_single_query_call query (locale req))
                         (search_single_query E i query (locale req));
                when (truthy search_result)
                  (modify (append_web_result (default "" search_result)));;
                mret Continue);;
              v ← get;
              when (bool_decide (w_web_search_contexts v ≠ []))
                (modify combine_web)) ≫= k) v =
            (ev ++ events (k tt combined), final (k tt combined),
             outcome (k tt combined))) as Hcrawl.
  { intros k. erewrite run_bind_ret; [reflexivity|].
    erewrite run_bind_ret by exact Hloop.
    unfold mbind, gen_bind, get, when, modify, mret, gen_ret, combined. simpl.
    destruct (bool_decide (results ≠ [])); simpl; by rewrite app_nil_r. }
  unfold try_except.
  destruct Hengine as [-> | ->]; rewrite Hcrawl;
    unfold mbind, gen_bind, get, when, read_local, yield, attempt, modify,
      mret, gen_ret, mthrow, gen_throw, send_step_with_code, combined;
    destruct (verbose req), (stream req), (bool_decide (results ≠ []));
    simpl; try destruct (w_combined_web_context v); simpl;
    try destruct (b64encode E _); simpl;
    rewrite ?calls_app, ?app_nil_r; simpl; rewrite ?app_nil_r;
    by split.
Qed.

Lemma crawling_collects_in_query_order_witness :
  calls (events (web_stage Scenario.crawler Scenario.crawling
                   (Scenario.planned Scenario.crawler Scenario.crawling)
                   web_vars_init)) =
    (λ q, search_single_query_call q (locale Scenario.crawling)) <$>
      v_search_queries (Scenario.planned Scenario.crawler Scenario.crawling) ∧
  w_all_contexts
    (final (web_stage Scenario.crawler Scenario.crawling
              (Scenario.planned Scenario.crawler Scenario.crawling)
              web_vars_init)) =
    [] ++
    (if bool_decide
          (crawl_results Scenario.crawler (locale Scenario.crawling) 0
             (v_search_queries
                (Scenario.planned Scenario.crawler Scenario.crawling)) ≠ [])
     then ["=== Web Search ===" +:+ NL +:+
           join (NL +:+ NL)
             (crawl_results Scenario.crawler (locale Scenario.crawling) 0
                (v_search_queries
                   (Scenario.planned Scenario.crawler Scenario.crawling)))]
     else []).
Proof.
  assert (v_search_queries
            (Scenario.planned Scenario.crawler Scenario.crawling) ≠ [])
    as Hqueries by (by vm_compute).
  exact (crawling_collects_in_query_order Scenario.crawler Scenario.crawling
           (Scenario.planned Scenario.crawler Scenario.crawling)
           web_vars_init (or_intror eq_refl) eq_refl Hqueries eq_refl
           (λ i q, ex_intro _ _ eq_refl)).
Defined.

(** X16. In grounding mode the web stage invokes the grounding search once,
    with the whole list of planned queries, and appends the Grounding Search
    block exactly when the search returns a non-empty value. *)
Theorem grounding_is_one_call E req iv (v : web_vars) r :
  search_engine req = BING_GROUNDING →
  v_include_web_search iv = true →
  v_search_queries iv ≠ [] →
  grounding_search_multi_query E (v_search_queries iv)
    (default (MAX_TOKENS E) (max_tokens req))
    (default (DEFAULT_TEMPERATURE E) (temperature req)) (locale req) = Ret r →
  calls (events (web_stage E req iv v)) =
    [grounding_search_multi_query_call (v_search_queries iv)
       (default (MAX_TOKENS E) (max_tokens req))
       (default (DEFAULT_TEMPERATURE E) (temperature req)) (locale req)] ∧
  w_all_contexts (final (web_stage E req iv v)) =
    w_all_contexts v ++
    (if truthy r
     then ["=== Grounding Search ===" +:+ NL +:+ default "" r] else []).
Proof.
  intros Hengine Hweb Hqueries Hresult.
  unfold web_stage, web_search. rewrite Hweb, bool_decide_eq_true_2 by done.
  rewrite Hengine. simpl.
  unfold try_except, mbind, gen_bind, get, when, read_local, yield, invoke,
    attempt, modify, mret, gen_ret, mthrow, gen_throw, send_step_with_code.
  rewrite Hresult.
  destruct (verbose req), (stream req), (truthy r); simpl;
    try destruct (w_combined_web_context v); simpl;
    try destruct (b64encode E _); simpl;
    rewrite ?app_nil_r; by split.
Qed.

Lemma grounding_is_one_call_witness :
  calls (events (web_stage Scenario.crawler Scenario.grounding
                   (Scenario.planned Scenario.crawler Scenario.grounding)
                   web_vars_init)) =
    [grounding_search_multi_query_call ["a"; "b"] 4000 (7 # 10)%Q
       (Some "en-US")] ∧
  w_all_contexts
    (final (web_stage Scenario.crawler Scenario.grounding
              (Scenario.planned Scenario.crawler Scenario.grounding)
              web_vars_init)) =
    ["=== Grounding Search ===" +:+ NL +:+ "grounded facts"].
Proof.
  assert (v_search_queries
            (Scenario.planned Scenario.crawler Scenario.grounding) ≠ [])
    as Hqueries by (by vm_compute).
  exact (grounding_is_one_call Scenario.crawler Scenario.grounding
           (Scenario.planned Scenario.crawler Scenario.grounding)
           web_vars_init (Some "grounded facts")
           eq_refl eq_refl Hqueries eq_refl).
Defined.

(** X17. In grounding mode with verbose streaming the stage reads the combined
    web context, which only the crawling modes assign: the stage ends with the
    status line of its exception handler, while the block it has appended
    stays. *)
Theorem verbose_grounding_reports_an_error E req iv r :
  search_engine req = BING_GROUNDING →
  verbose req = true →
  stream req = true →
  v_include_web_search iv = true →
  v_search_queries iv ≠ [] →
  grounding_search_multi_query E (v_search_queries iv)
    (default (MAX_TOKENS E) (max_tokens req))
    (default (DEFAULT_TEMPERATURE E) (temperature req)) (locale req) = Ret r →
  last (yields (events (web_stage E req iv web_vars_init))) =
    Some (status_line ("Error during web search: " +:+
                       UnboundLocalError "combined_web_context")) ∧
  w_all_contexts (final (web_stage E req iv web_vars_init)) =
    if truthy r
    then ["=== Grounding Search ===" +:+ NL +:+ default "" r] else [].
Proof.
  intros Hengine Hverbose Hstream Hweb Hqueries Hresult.
  unfold web_stage, web_search. rewrite Hweb, bool_decide_eq_true_2 by done.
  rewrite Hengine, Hverbose, Hstream. simpl.
  unfold try_except, mbind, gen_bind, get, when, read_local, yield, invoke,
    modify, mret, gen_ret, mthrow, gen_throw.
  rewrite Hresult. by destruct (truthy r).
Qed.

Lemma verbose_grounding_reports_an_error_witness :
  last (yields (events (web_stage Scenario.crawler Scenario.verbose_grounding
                          (Scenario.planned Scenario.crawler
                             Scenario.verbose_grounding)
                          web_vars_init))) =
    Some (status_line ("Error during web search: " +:+
                       UnboundLocalError "combined_web_context")) ∧
  w_all_contexts
    (final (web_stage Scenario.crawler Scenario.verbose_grounding
              (Scenario.planned Scenario.crawler Scenario.verbose_grounding)
              web_vars_init)) =
    ["=== Grounding Search ===" +:+ NL +:+ "grounded facts"].
Proof.
  assert (v_search_queries
            (Scenario.planned Scenario.crawler Scenario.verbose_grounding)
            ≠ []) as Hqueries by (by vm_compute).
  exact (verbose_grounding_reports_an_error Scenario.crawler
           Scenario.verbose_grounding
           (Scenario.planned Scenario.crawler Scenario.verbose_grounding)
           (Some "grounded facts")
           eq_refl eq_refl eq_refl eq_refl Hqueries eq_refl).
Defined.

(** ** Releasing resources (lines 584-609) *)

Lemma release_all (hook : hooks) (rs : list resource) :
  (∀ r e, r ∈ rs → hook r ≠ Some (Raise e)) →
  release hook rs = (filter (λ r, is_Some (hook r)) rs, Ret tt).
Proof.
  induction rs as [|r rs IH]; intros Hreturn; [done|]. simpl.
  rewrite IH by (intros r' e ?; apply Hreturn; by right).
  destruct (hook r) as [[[]|e]|] eqn:Hr.
  - by rewrite filter_cons_True by (by rewrite Hr).
  - by destruct (Hreturn r e (list_elem_of_here _ _)).
  - rewrite filter_cons_False; [done|]. rewrite Hr. by intros [? ?].
Qed.

Lemma release_until (hook : hooks) (earlier later : list resource)
    (r : resource) (e : exn) :
  (∀ r' e', r' ∈ earlier → hook r' ≠ Some (Raise e')) →
  hook r = Some (Raise e) →
  release hook (earlier ++ r :: later) =
    (filter (λ r, is_Some (hook r)) earlier ++ [r], Raise e).
Proof.
  intros Hreturn Hr.
  induction earlier as [|r' earlier IH]; simpl; [by rewrite Hr|].
  rewrite IH by (intros r'' e' ?; apply Hreturn; by right).
  destruct (hook r') as [[[]|e']|] eqn:Hr'.
  - by rewrite filter_cons_True by (by rewrite Hr').
  - by destruct (Hreturn r' e' (list_elem_of_here _ _)).
  - rewrite filter_cons_False; [done|]. rewrite Hr'. by intros [? ?].
Qed.

(** X18. When no hook raises, [cleanup] invokes the hook of every resource
    that has one, in the order the two video plugins, the intent plugin, the
    grounding plugin, the client; a resource without a hook is passed over;
    the final pause is reached and nothing is logged. *)
Theorem cleanup_releases_in_order (hook : hooks) :
  (∀ r e, hook r ≠ Some (Raise e)) →
  cleanup hook =
    {| invoked := filter (λ r, is_Some (hook r)) released_in_order;
       paused := true;
       logged := None |}.
Proof.
  intros Hreturn. unfold cleanup. by rewrite release_all.
Qed.

Lemma cleanup_releases_in_order_witness :
  cleanup Scenario.tidy =
    {| invoked := [youtube_plugin; intent_plan_plugin; grounding_plugin;
                   client];
       paused := true;
       logged := None |}.
Proof.
  assert (∀ r e, Scenario.tidy r ≠ Some (Raise e)) as Hreturn
    by (by intros [] e).
  exact (cleanup_releases_in_order Scenario.tidy Hreturn).
Defined.

(** X19. When a hook raises, [cleanup] logs the exception and returns: the
    resources that come after the failing one are not released and the final
    pause is skipped. In particular the client stays open when any plugin's
    hook raises. *)
Theorem cleanup_stops_at_first_failure (hook : hooks)
    (earlier later : list resource) (r : resource) (e : exn) :
  released_in_order = earlier ++ r :: later →
  (∀ r' e', r' ∈ earlier → hook r' ≠ Some (Raise e')) →
  hook r = Some (Raise e) →
  cleanup hook =
    {| invoked := filter (λ r, is_Some (hook r)) earlier ++ [r];
       paused := false;
       logged := Some e |} ∧
  (r ≠ client → client ∉ invoked (cleanup hook)).
Proof.
  intros Horder Hreturn Hr.
  assert (cleanup hook =
            {| invoked := filter (λ r, is_Some (hook r)) earlier ++ [r];
               paused := false;
               logged := Some e |}) as Hcleanup.
  { unfold cleanup. rewrite Horder. by erewrite release_until. }
  split; [done|]. intros Hplugin. rewrite Hcleanup. simpl.
  intros [Hin%list_elem_of_filter | Heq%list_elem_of_singleton]%elem_of_app;
    [|by destruct Hplugin].
  destruct Hin as [_ Hin].
  assert (NoDup released_in_order) as Hnodup
    by (unfold released_in_order;
        repeat (apply NoDup_cons_2;
                [intros Hin';
                 repeat (apply elem_of_cons in Hin' as [Hin'|Hin'];
                         [discriminate|]);
                 by apply elem_of_nil in Hin'|]);
        apply NoDup_nil_2).
  assert (last released_in_order = Some client) as Hlast by done.
  rewrite Horder in Hnodup, Hlast.
  rewrite last_app_cons in Hlast.
  apply NoDup_app in Hnodup as (_ & Hdisjoint & _).
  apply (Hdisjoint client Hin).
  destruct later as [|r' later _] using rev_ind; [by simplify_eq/=|].
  rewrite app_comm_cons, last_snoc in Hlast. simplify_eq.
  rewrite app_comm_cons. apply elem_of_app. right. by left.
Qed.

Lemma cleanup_stops_at_first_failure_witness :
  cleanup Scenario.stuck =
    {| invoked := [youtube_plugin; intent_plan_plugin];
       paused := false;
       logged := Some "plugin unavailable" |} ∧
  client ∉ invoked (cleanup Scenario.stuck).
Proof.
  assert (∀ r' e', r' ∈ [youtube_plugin; youtube_mcp_plugin] →
                   Scenario.stuck r' ≠ Some (Raise e')) as Hreturn.
  { intros r' e' Hin. destruct r'; try done.
    exfalso. by repeat (apply elem_of_cons in Hin as [Hin|Hin];
                        [discriminate|]); apply elem_of_nil in Hin. }
  assert (intent_plan_plugin ≠ client) as Hplugin by done.
  destruct (cleanup_stops_at_first_failure Scenario.stuck
              [youtube_plugin; youtube_mcp_plugin]
              [grounding_plugin; client] intent_plan_plugin
              "plugin unavailable" eq_refl Hreturn eq_refl)
    as [Hcleanup Hclient].
  exact (conj Hcleanup (Hclient Hplugin)).
Defined.

(** ** A block for every query of the video stage (lines 363-394) *)

(** X20. The video stage appends at most one block for every planned query,
    each labelled Youtube Search; unlike the web and the document stage it is
    not held to one block a request. *)
Theorem video_stage_adds_at_most_one_block_per_query E req iv
    (v : youtube_vars) :
  ∃ blocks,
    y_all_contexts (final (youtube_stage E req iv v)) =
      y_all_contexts v ++ blocks ∧
    (length blocks ≤ length (v_search_queries iv))%nat ∧
    Forall (λ block, String.prefix "=== Youtube Search ===" block = true)
      blocks.
Proof.
  set (before := y_all_contexts v).
  set (J := λ (n : nat) (s : youtube_vars),
         ∃ blocks,
           y_all_contexts s = before ++ blocks ∧
           (length blocks ≤ n)%nat ∧
           Forall (λ block, String.prefix "=== Youtube Search ===" block = true)
             blocks).
  assert (∀ n n' s, (n ≤ n')%nat → J n s → J n' s) as Hmono.
  { intros n n' s Hle (blocks & ? & ? & ?). exists blocks.
    split_and!; [done|lia|done]. }
  assert (∀ n s, J n s → J (0 + 1 * n)%nat s) as Hscale.
  { intros n s. apply Hmono. lia. }
  cut (leads (J 0%nat) (J (0 + 1 * length (v_search_queries iv))%nat)
         (youtube_stage E req iv)).
  { intros Hleads. apply (Hmono (0 + 1 * length (v_search_queries iv))%nat);
      [lia|].
    apply Hleads. exists []. by rewrite app_nil_r. }
  unfold youtube_stage, youtube_search.
  apply leads_when; [|intros s; apply Hmono; lia].
  apply leads_try; [|intros e; preserves_all].
  apply leads_post; [|intros []; preserves_all].
  apply leads_for_cost; [done|].
  intros i query n.
  apply leads_pre; [preserves_all | intros s; apply Hmono; lia |]. intros [].
  apply leads_pre; [preserves_all | intros s; apply Hmono; lia |].
  intros mcp_result.
  apply leads_pre; [preserves_all; by simpl | intros s; apply Hmono; lia |].
  intros []. intros s (blocks & Hs & Hlength & Hlabels).
  unfold mbind, gen_bind, get, when, modify, mret, gen_ret. simpl.
  case_bool_decide; simpl.
  - eexists (blocks ++ [_]). split_and!.
    + simpl. rewrite Hs. symmetry. apply app_assoc.
    + rewrite length_app. simpl. lia.
    + apply Forall_app_2; [done|]. constructor; [|done]. apply prefix_append.
  - exists blocks. split_and!; [done|lia|done].
Qed.

(** ** The order of the invocations (lines 160-577) *)

(** X21. The invocations of a request come stage by stage: first the
    classifier and the planner, then web searches, then video searches, then
    document searches, and last the completion client, which is called at most
    once. No search follows the completion call, and no stage is returned to. *)
Theorem calls_follow_the_stages E req :
  ∃ understanding web video docs completion,
    calls (generate_response E req) =
      understanding ++ web ++ video ++ docs ++ completion ∧
    Forall (λ c, is_web_call c = false ∧ is_video_call c = false ∧
                 is_document_call c = false ∧ is_completion_call c = false)
      understanding ∧
    Forall (λ c, is_web_call c = true) web ∧
    Forall (λ c, is_video_call c = true) video ∧
    Forall (λ c, is_document_call c = true) docs ∧
    Forall (λ c, is_completion_call c = true) completion ∧
    (length completion ≤ 1)%nat.
Proof.
  destruct (decide (last_user_message (messages req) = "No question provided"))
    as [Hmissing|Hquestion].
  { rewrite generate_response_without_question by done.
    exists [], [], [], [], []. simpl. split_and!; by try constructor. }
  rewrite generate_response_run by done.
  set (iv := final (intent_stage E req (intent_vars_init req))).
  set (wv := final (web_stage E req iv web_vars_init)).
  set (yv := final (youtube_stage E req iv
                      (youtube_vars_init (w_all_contexts wv)))).
  set (dv := final (document_stage E req iv
                      (doc_vars_init (y_all_contexts yv)))).
  rewrite app_assoc, !calls_app.
  eexists _, _, _, _, _. split; [reflexivity|].
  split_and!.
  - apply Forall_app_2.
    + destruct (stream req); by repeat constructor.
    + apply Forall_calls.
      by apply (intent_stage_emits E req
                  (only_calls (λ c, is_web_call c = false ∧
                                    is_video_call c = false ∧
                                    is_document_call c = false ∧
                                    is_completion_call c = false))).
  - apply Forall_calls.
    by apply (web_stage_emits E req (only_calls (λ c, is_web_call c = true))).
  - apply Forall_calls.
    by apply (youtube_stage_emits E req
                (only_calls (λ c, is_video_call c = true))).
  - apply Forall_calls.
    by apply (document_stage_emits E req
                (only_calls (λ c, is_document_call c = true))).
  - apply Forall_calls.
    by apply (generate_answer_emits E req iv (d_all_contexts dv)
                (only_calls (λ c, is_completion_call c = true))).
  - destruct (v_user_intent iv) as [u|] eqn:Hintent.
    + by rewrite (generate_answer_one_call E req iv _ u Hintent).
    + rewrite generate_answer_unbound by done. simpl.
      destruct (stream req); simpl; lia.
Qed.
